(** * FocusSphere: client-side session protocol

    A shallow embedding of the React client of FocusSphere
    (frontend/src/PomodoroTimer.jsx and frontend/src/App.jsx): the
    synchronized countdown timer, the chat message list and the
    outgoing-invitation countdown.

    Modelling conventions.
    - A React component is a record of its [useState] cells.  A handler is a
      function of the render snapshot it closes over (the "closure") that
      returns, in program order, the commands it issues: state setters,
      socket emits, scheduled callbacks.  [run] applies the queued setters
      to the current state.  A callback scheduled from a render keeps that
      render's snapshot, exactly as a JavaScript closure does.
    - JavaScript numbers that hold seconds, counts and ids are [Z];
      [null]/[undefined] is [None]; [%] is [Z.rem]; [===] on values of
      different types is [false].
    - Strings are sequences of code units below 256. *)

From Stdlib Require Import ZArith List String Ascii Bool Lia DecimalString Permutation.
Import ListNotations.

#[local] Open Scope string_scope.
#[local] Open Scope list_scope.
#[local] Open Scope Z_scope.

(** Template-literal interpolation [`${n}`] of an integral number. *)
Definition show (z : Z) : string := NilZero.string_of_int (Z.to_int z).

(** JavaScript truthiness of a nullable string: [null], [undefined] and
    the empty string are falsy. *)
Definition truthy (s : option string) : bool :=
  match s with
  | Some s => negb (String.eqb s "")
  | None => false
  end.

(** [a || b] where [a] is a nullable number: [null], [undefined] and [0]
    are falsy and yield [b]. *)
Definition number_or (a : option Z) (b : Z) : Z :=
  match a with
  | Some t => if t =? 0 then b else t
  | None => b
  end.

(* ===================================================================== *)
(** * PomodoroTimer.jsx *)
(* ===================================================================== *)

Module PomodoroTimer.

(** The three timer modes, the keys of [TIMER_PRESETS]. *)
Inductive Mode : Type := pomodoro | short | long.

Definition Mode_eqb (a b : Mode) : bool :=
  match a, b with
  | pomodoro, pomodoro | short, short | long, long => true
  | _, _ => false
  end.

Definition DEFAULT_POMODORO_TIME : Z := 25 * 60.
Definition DEFAULT_SHORT_BREAK_TIME : Z := 5 * 60.
Definition DEFAULT_LONG_BREAK_TIME : Z := 15 * 60.

Record Preset : Type := { preset_name : string; preset_time : option Z }.

Definition TIMER_PRESETS (m : Mode) : list Preset :=
  match m with
  | pomodoro =>
      [ {| preset_name := "Classic"; preset_time := Some (25 * 60) |};
        {| preset_name := "Short"; preset_time := Some (15 * 60) |};
        {| preset_name := "Long"; preset_time := Some (45 * 60) |};
        {| preset_name := "Custom"; preset_time := None |} ]
  | short =>
      [ {| preset_name := "Quick"; preset_time := Some (3 * 60) |};
        {| preset_name := "Standard"; preset_time := Some (5 * 60) |};
        {| preset_name := "Extended"; preset_time := Some (10 * 60) |} ]
  | long =>
      [ {| preset_name := "Short"; preset_time := Some (10 * 60) |};
        {| preset_name := "Standard"; preset_time := Some (15 * 60) |};
        {| preset_name := "Extended"; preset_time := Some (30 * 60) |} ]
  end.

(** An object with one entry per mode: [customDurations], [selectedPreset]. *)
Record PerMode (A : Type) : Type :=
  { at_pomodoro : A; at_short : A; at_long : A }.
Arguments at_pomodoro {A} _.
Arguments at_short {A} _.
Arguments at_long {A} _.

Definition get {A : Type} (o : PerMode A) (m : Mode) : A :=
  match m with
  | pomodoro => at_pomodoro o
  | short => at_short o
  | long => at_long o
  end.

(** The props of the component; the socket itself is the target of the
    [Emit] command below. *)
Record Props : Type :=
  { sessionRoom : string;
    onPomodoroComplete : bool  (* whether the callback prop was provided *) }.

(** The state cells that the timer protocol reads and writes.  The cells
    that only drive rendering ([showSettings], [sessionGoal],
    [currentMessage]) are left out. *)
Record State : Type :=
  { timeRemaining : Z;
    isRunning : bool;
    mode : Mode;
    hasCompletedPomodoro : bool;
    pomodoroCount : Z;
    autoStartBreaks : bool;
    customDurations : PerMode Z;
    selectedPreset : PerMode nat }.

Definition initial : State :=
  {| timeRemaining := DEFAULT_POMODORO_TIME;
     isRunning := false;
     mode := pomodoro;
     hasCompletedPomodoro := false;
     pomodoroCount := 0;
     autoStartBreaks := true;
     customDurations :=
       {| at_pomodoro := DEFAULT_POMODORO_TIME;
          at_short := DEFAULT_SHORT_BREAK_TIME;
          at_long := DEFAULT_LONG_BREAK_TIME |};
     selectedPreset := {| at_pomodoro := 0%nat; at_short := 1%nat; at_long := 1%nat |} |}.

(** What the component sends on the socket. *)
Inductive Emitted : Type :=
| timer_action (room_id : string) (action : string) (time : Z) (mode : Mode)
| pomodoro_completed (room_id : string).

Inductive Notification : Type :=
| PomodoroComplete (newCount : Z)
| BreakComplete.

(** The commands a handler issues. *)
Inductive Cmd : Type :=
| setTimeRemaining (t : Z)
| setIsRunning (b : bool)
| setMode (m : Mode)
| setHasCompletedPomodoro (b : bool)
| setPomodoroCount (n : Z)
| Emit (e : Emitted)
| playNotificationSound
| showNotification (n : Notification)
| callOnPomodoroComplete.

Definition apply_cmd (s : State) (c : Cmd) : State :=
  match c with
  | setTimeRemaining t =>
      {| timeRemaining := t; isRunning := isRunning s; mode := mode s;
         hasCompletedPomodoro := hasCompletedPomodoro s;
         pomodoroCount := pomodoroCount s; autoStartBreaks := autoStartBreaks s;
         customDurations := customDurations s; selectedPreset := selectedPreset s |}
  | setIsRunning b =>
      {| timeRemaining := timeRemaining s; isRunning := b; mode := mode s;
         hasCompletedPomodoro := hasCompletedPomodoro s;
         pomodoroCount := pomodoroCount s; autoStartBreaks := autoStartBreaks s;
         customDurations := customDurations s; selectedPreset := selectedPreset s |}
  | setMode m =>
      {| timeRemaining := timeRemaining s; isRunning := isRunning s; mode := m;
         hasCompletedPomodoro := hasCompletedPomodoro s;
         pomodoroCount := pomodoroCount s; autoStartBreaks := autoStartBreaks s;
         customDurations := customDurations s; selectedPreset := selectedPreset s |}
  | setHasCompletedPomodoro b =>
      {| timeRemaining := timeRemaining s; isRunning := isRunning s; mode := mode s;
         hasCompletedPomodoro := b;
         pomodoroCount := pomodoroCount s; autoStartBreaks := autoStartBreaks s;
         customDurations := customDurations s; selectedPreset := selectedPreset s |}
  | setPomodoroCount n =>
      {| timeRemaining := timeRemaining s; isRunning := isRunning s; mode := mode s;
         hasCompletedPomodoro := hasCompletedPomodoro s;
         pomodoroCount := n; autoStartBreaks := autoStartBreaks s;
         customDurations := customDurations s; selectedPreset := selectedPreset s |}
  | Emit _ | playNotificationSound | showNotification _ | callOnPomodoroComplete => s
  end.

(** The state after the queued setters of [cs] are applied, in order. *)
Definition run (s : State) (cs : list Cmd) : State := fold_left apply_cmd cs s.

(** The socket traffic of a command list, in order. *)
Fixpoint emitted (cs : list Cmd) : list Emitted :=
  match cs with
  | [] => []
  | Emit e :: cs => e :: emitted cs
  | _ :: cs => emitted cs
  end.

(** [TIMER_PRESETS[m][selectedPreset[m]]] when it exists and has a time,
    [customDurations[m]] otherwise.  The source spells this expression out
    three times: in [getCurrentDuration], in the reset fallback of
    [handleTimerUpdate] and in [handleSetMode]. *)
Definition durationOf (c : State) (m : Mode) : Z :=
  match nth_error (TIMER_PRESETS m) (get (selectedPreset c) m) with
  | Some {| preset_time := Some t |} => t
  | _ => get (customDurations c) m
  end.

Definition getCurrentDuration (c : State) : Z := durationOf c (mode c).

(** The mount/mode effect [useEffect(() => setTimeRemaining(getCurrentDuration()),
    [mode, selectedPreset, customDurations])]. *)
Definition initDurationEffect (c : State) : list Cmd :=
  [setTimeRemaining (getCurrentDuration c)].

(** [getProgress] is [(total - timeRemaining) / total * 100]; the elapsed
    share is zero exactly when nothing of the total has elapsed. *)
Definition elapsed (c : State) : Z := getCurrentDuration c - timeRemaining c.

(** ** Control handlers *)

(** [sendTimerAction(action, newTime = null, newMode = mode)]. *)
Definition sendTimerAction (p : Props) (c : State)
    (action : string) (newTime : option Z) (newMode : option Mode) : list Cmd :=
  let timeToSend := match newTime with Some t => t | None => timeRemaining c end in
  let newMode := match newMode with Some m => m | None => mode c end in
  [Emit (timer_action (sessionRoom p) action timeToSend newMode)].

Definition handleStartPause (p : Props) (c : State) : list Cmd :=
  if isRunning c
  then sendTimerAction p c "pause" None None
  else sendTimerAction p c "start" (Some (timeRemaining c)) None.

Definition handleReset (p : Props) (c : State) : list Cmd :=
  let resetTime := getCurrentDuration c in
  [setTimeRemaining resetTime; setIsRunning false]
    ++ sendTimerAction p c "reset" (Some resetTime) (Some (mode c)).

Definition handleSkip (p : Props) (c : State) : list Cmd :=
  sendTimerAction p c "skip" (Some 0) (Some (mode c)).

Definition handleSetMode (p : Props) (c : State) (newMode : Mode) (silent : bool)
    : list Cmd :=
  let newTime := durationOf c newMode in
  (if Mode_eqb newMode pomodoro then [setHasCompletedPomodoro false] else [])
    ++ [setMode newMode; setTimeRemaining newTime]
    ++ (if silent then [] else sendTimerAction p c "set_mode" (Some newTime) (Some newMode)).

(** ** The socket listener *)

(** The payload of a [timer_update] event. *)
Record TimerUpdate : Type :=
  { data_action : string;
    data_time : option Z;
    data_mode : option Mode }.

Definition handleTimerUpdate (c : State) (data : TimerUpdate) : list Cmd :=
  if String.eqb (data_action data) "start" then
    [ setTimeRemaining (number_or (data_time data) (timeRemaining c));
      setIsRunning true ]
  else if String.eqb (data_action data) "pause" then
    [ setIsRunning false ]
  else if String.eqb (data_action data) "reset" then
    let targetMode := match data_mode data with Some m => m | None => mode c end in
    let resetTime :=
      match data_time data with
      | Some t => t
      | None => durationOf c targetMode
      end in
    (match data_mode data with
     | Some m => if negb (Mode_eqb m (mode c)) then [setMode m] else []
     | None => []
     end)
      ++ [setTimeRemaining resetTime; setIsRunning false]
  else if String.eqb (data_action data) "skip" then
    [ setTimeRemaining 0; setIsRunning true ]
  else if String.eqb (data_action data) "set_mode" then
    (* [setTimeRemaining(data.time)]: a payload without a time is not
       produced by any sender; the cell is left as it is in that case. *)
    (match data_time data with Some t => [setTimeRemaining t] | None => [] end)
      ++ (match data_mode data with Some m => [setMode m] | None => [] end)
      ++ [setIsRunning false]
  else [].

(** ** The local countdown effect *)

(** What one run of the countdown effect leaves behind: the commands it
    issues at once, whether it installed the one-second interval, and the
    body of the callback it scheduled two seconds later. *)
Record EffectRun : Type :=
  { now : list Cmd;
    interval : bool;
    after2s : list Cmd }.

(** The [else if (isRunning && timeRemaining === 0)] branch. *)
Definition timerCompletion (p : Props) (c : State) : EffectRun :=
  let first := [setIsRunning false; playNotificationSound] in
  if Mode_eqb (mode c) pomodoro then
    let newCount := pomodoroCount c + 1 in
    {| now :=
         first
           ++ [ setPomodoroCount newCount; setHasCompletedPomodoro true;
                showNotification (PomodoroComplete newCount);
                Emit (pomodoro_completed (sessionRoom p)) ]
           ++ (if onPomodoroComplete p then [callOnPomodoroComplete] else []);
       interval := false;
       after2s :=
         if autoStartBreaks c then
           let breakMode := if Z.rem newCount 4 =? 0 then long else short in
           handleSetMode p c breakMode true ++ handleStartPause p c
         else [] |}
  else
    {| now := first ++ [showNotification BreakComplete];
       interval := false;
       after2s :=
         if autoStartBreaks c then
           handleSetMode p c pomodoro true ++ handleStartPause p c
         else [] |}.

Definition countdownEffect (p : Props) (c : State) : EffectRun :=
  if isRunning c && (timeRemaining c >? 0) then
    {| now := []; interval := true; after2s := [] |}
  else if isRunning c && (timeRemaining c =? 0) then
    timerCompletion p c
  else
    {| now := []; interval := false; after2s := [] |}.

(** One firing of the interval: [setTimeRemaining(prev => prev - 1)]. *)
Definition countdownTick (s : State) : State :=
  apply_cmd s (setTimeRemaining (timeRemaining s - 1)).

(** A commit: the queued setters are applied and, when the render sees a
    new [mode], the mount/mode effect runs on the new snapshot.  (None of
    the commands above replaces [selectedPreset] or [customDurations].) *)
Definition commit (s : State) (cs : list Cmd) : State :=
  let s' := run s cs in
  if Mode_eqb (mode s') (mode s) then s' else run s' (initDurationEffect s').

End PomodoroTimer.

(* ===================================================================== *)
(** * App.jsx *)
(* ===================================================================== *)

(** ** String helpers of the JavaScript runtime *)

(** [WhiteSpace] and [LineTerminator] code units below 256: TAB, LF, VT,
    FF, CR, SP and NBSP. *)
Definition is_whitespace (c : ascii) : bool :=
  existsb (Nat.eqb (nat_of_ascii c)) [9; 10; 11; 12; 13; 32; 160]%nat.

Fixpoint trimStart (s : string) : string :=
  match s with
  | EmptyString => EmptyString
  | String c r => if is_whitespace c then trimStart r else s
  end.

Fixpoint trimEnd (s : string) : string :=
  match s with
  | EmptyString => EmptyString
  | String c r =>
      match trimEnd r with
      | EmptyString => if is_whitespace c then EmptyString else String c EmptyString
      | r' => String c r'
      end
  end.

(** [String.prototype.trim]. *)
Definition trim (s : string) : string := trimEnd (trimStart s).

(** [String.prototype.includes]. *)
Definition includes (s sub : string) : bool :=
  match index 0 sub s with
  | Some _ => true
  | None => false
  end.

Definition dquote : string := String (ascii_of_nat 34) EmptyString.

Module App.

(** A message id as it arrives in JSON or is built locally: a number, a
    string, or [undefined] when the field is missing.  [===] never
    identifies values of different types. *)
Inductive MsgId : Type :=
| IdNum (n : Z)
| IdStr (s : string)
| IdUndefined.

Definition strict_eq (a b : MsgId) : bool :=
  match a, b with
  | IdNum x, IdNum y => x =? y
  | IdStr x, IdStr y => String.eqb x y
  | IdUndefined, IdUndefined => true
  | _, _ => false
  end.

Record ChatMessage : Type :=
  { id : MsgId;
    sender : string;
    text : string }.

(** [{ invitee_user_id, invitee_name }]. *)
Record OutgoingInvite : Type :=
  { invitee_user_id : Z;
    invitee_name : string }.

(** The state cells of [App] that the chat list and the outgoing
    invitation read and write. *)
Record State : Type :=
  { message : string;
    isSocketRegistered : bool;
    outgoingInvite : option OutgoingInvite;
    outgoingInviteTimer : Z;
    sessionRoom : option string;
    messages : list ChatMessage;
    newMessage : string }.

(** The commands a handler of [App] issues.  [setMessages] and
    [tickOutgoingInviteTimer] are functional updates ([prev => ...]): they
    are applied to the state current at that time, not to the snapshot. *)
Inductive Cmd : Type :=
| setMessage (m : string)
| setOutgoingInvite (o : option OutgoingInvite)
| setOutgoingInviteTimer (n : Z)
| tickOutgoingInviteTimer
| setMessages (f : list ChatMessage -> list ChatMessage)
| setNewMessage (m : string)
| emit_send_message (room_id : string) (text : string)
| registerSocketWithRetry (maxRetries : Z) (delay : Z)
| post_match_invite (invitee_user_id : Z)
| setTimeout_setMessage (ms : Z) (m : string).

Definition apply_cmd (s : State) (c : Cmd) : State :=
  match c with
  | setMessage m =>
      {| message := m; isSocketRegistered := isSocketRegistered s;
         outgoingInvite := outgoingInvite s;
         outgoingInviteTimer := outgoingInviteTimer s;
         sessionRoom := sessionRoom s; messages := messages s;
         newMessage := newMessage s |}
  | setOutgoingInvite o =>
      {| message := message s; isSocketRegistered := isSocketRegistered s;
         outgoingInvite := o;
         outgoingInviteTimer := outgoingInviteTimer s;
         sessionRoom := sessionRoom s; messages := messages s;
         newMessage := newMessage s |}
  | setOutgoingInviteTimer n =>
      {| message := message s; isSocketRegistered := isSocketRegistered s;
         outgoingInvite := outgoingInvite s;
         outgoingInviteTimer := n;
         sessionRoom := sessionRoom s; messages := messages s;
         newMessage := newMessage s |}
  | tickOutgoingInviteTimer =>
      {| message := message s; isSocketRegistered := isSocketRegistered s;
         outgoingInvite := outgoingInvite s;
         outgoingInviteTimer := outgoingInviteTimer s - 1;
         sessionRoom := sessionRoom s; messages := messages s;
         newMessage := newMessage s |}
  | setMessages f =>
      {| message := message s; isSocketRegistered := isSocketRegistered s;
         outgoingInvite := outgoingInvite s;
         outgoingInviteTimer := outgoingInviteTimer s;
         sessionRoom := sessionRoom s; messages := f (messages s);
         newMessage := newMessage s |}
  | setNewMessage m =>
      {| message := message s; isSocketRegistered := isSocketRegistered s;
         outgoingInvite := outgoingInvite s;
         outgoingInviteTimer := outgoingInviteTimer s;
         sessionRoom := sessionRoom s; messages := messages s;
         newMessage := m |}
  | emit_send_message _ _ | registerSocketWithRetry _ _
  | post_match_invite _ | setTimeout_setMessage _ _ => s
  end.

Definition run (s : State) (cs : list Cmd) : State := fold_left apply_cmd cs s.

(** The invite requests a command list sends to the API, in order. *)
Fixpoint requests (cs : list Cmd) : list Z :=
  match cs with
  | [] => []
  | post_match_invite u :: cs => u :: requests cs
  | _ :: cs => requests cs
  end.

(** ** Chat *)

(** The updater that the [receive_message] listener passes to
    [setMessages]. *)
Definition addMessage (messageData : ChatMessage) (prevMessages : list ChatMessage)
    : list ChatMessage :=
  let exists_ := existsb (fun msg => strict_eq (id msg) (id messageData)) prevMessages in
  if exists_ then prevMessages else prevMessages ++ [messageData].

Definition on_receive_message (messageData : ChatMessage) : list Cmd :=
  [setMessages (addMessage messageData)].

(** The optimistic copy: [{ id: `temp_${Date.now()}`, sender: 'You', text }]. *)
Definition tempMessage (now : Z) (messageText : string) : ChatMessage :=
  {| id := IdStr ("temp_" ++ show now)%string;
     sender := "You";
     text := messageText |}.

(** [handleSendMessage]; [now] is the value of [Date.now()]. *)
Definition handleSendMessage (c : State) (now : Z) : list Cmd :=
  if String.eqb (trim (newMessage c)) "" || negb (truthy (sessionRoom c)) then []
  else
    let messageText := trim (newMessage c) in
    [ setMessages (fun prevMessages => prevMessages ++ [tempMessage now messageText]);
      emit_send_message
        (match sessionRoom c with Some r => r | None => "" end) messageText;
      setNewMessage "" ].

(** The messages of a list that show a given text. *)
Definition with_text (t : string) (ms : list ChatMessage) : list ChatMessage :=
  filter (fun m => String.eqb (text m) t) ms.

(** ** Invitations *)

(** How [apiClient.post('/api/match/invite', ...)] settles: it resolves, or
    it rejects with [error.response?.data?.error] possibly present. *)
Inductive PostResult : Type :=
| Resolved
| Rejected (error : option string).

Definition already_pending : string :=
  "You already have a pending invitation. Please wait for a response.".

(** [handleSendInvite(inviteeUserId, inviteeName)]; [connected] is
    [socket.connected] and [res] is how the request settles once sent. *)
Definition handleSendInvite (c : State) (connected : bool)
    (inviteeUserId : Z) (inviteeName : option string) (res : PostResult) : list Cmd :=
  match outgoingInvite c with
  | Some _ => [setMessage already_pending]
  | None =>
      [setMessage
         ("Sending invite to "
            ++ (if truthy inviteeName
                then match inviteeName with Some n => n | None => "" end
                else "user " ++ show inviteeUserId)
            ++ "...")%string]
        ++ (if negb (isSocketRegistered c) && connected
            then [registerSocketWithRetry 3 200] else [])
        ++ [post_match_invite inviteeUserId]
        ++ match res with
           | Resolved =>
               [ setOutgoingInvite
                   (Some {| invitee_user_id := inviteeUserId;
                            invitee_name :=
                              if truthy inviteeName
                              then match inviteeName with Some n => n | None => "" end
                              else ("User " ++ show inviteeUserId)%string |});
                 setOutgoingInviteTimer 15;
                 setMessage "Invitation sent! Waiting for response..." ]
           | Rejected error =>
               let errorMsg :=
                 if truthy error
                 then match error with Some e => e | None => "" end
                 else "Could not send invite" in
               [setMessage ("Error: " ++ errorMsg)%string]
                 ++ (if includes errorMsg "not online"
                     then [setTimeout_setMessage 2000
                             ("Tip: Make sure the other user is logged in and has set their status to "
                                ++ dquote ++ "searching" ++ dquote
                                ++ ". Try again in a moment.")%string]
                     else [])
           end
  end.

(** The [invite_declined] listener. *)
Definition on_invite_declined : list Cmd :=
  [ setOutgoingInvite None;
    setOutgoingInviteTimer 15;
    setMessage "Your invitation was declined. You can send another invite now." ].

(** One run of the outgoing-invite timer effect: the commands it issues
    and whether it armed the one-second timeout. *)
Definition outgoingInviteEffect (c : State) : list Cmd * bool :=
  match outgoingInvite c with
  | None => ([setOutgoingInviteTimer 15], false)
  | Some _ =>
      if outgoingInviteTimer c <=? 0 then
        ([ setOutgoingInvite None;
           setOutgoingInviteTimer 15;
           setMessage "Invitation expired. You can send another invite now." ],
         false)
      else ([], true)
  end.

Definition OutgoingInvite_eqb (a b : OutgoingInvite) : bool :=
  (invitee_user_id a =? invitee_user_id b)
  && String.eqb (invitee_name a) (invitee_name b).

(** Whether the dependency array [[outgoingInvite, outgoingInviteTimer]]
    is the same in two renders.  React compares the object by identity; the
    effect only ever stores [null], for which identity and this comparison
    agree. *)
Definition same_deps (a b : State) : bool :=
  match outgoingInvite a, outgoingInvite b with
  | None, None => true
  | Some x, Some y => OutgoingInvite_eqb x y
  | _, _ => false
  end
  && (outgoingInviteTimer a =? outgoingInviteTimer b).

(** The effect runs after a render and runs again after every render that
    its own setters cause, for as long as the dependencies keep changing. *)
Fixpoint rerender (fuel : nat) (s : State) : State * bool :=
  let '(cs, armed) := outgoingInviteEffect s in
  let s' := run s cs in
  match fuel with
  | O => (s', armed)
  | S fuel => if same_deps s s' then (s', armed) else rerender fuel s'
  end.

(** Two further renders always suffice (lemma [rerender_settles]). *)
Definition settle (s : State) : State * bool := rerender 2 s.

(** One second passes: an armed timeout fires its
    [setOutgoingInviteTimer(prev => prev - 1)] and the effect runs on the
    new render; with no timeout armed nothing happens. *)
Definition second_passes (k : State * bool) : State * bool :=
  let '(s, armed) := k in
  if armed then settle (run s [tickOutgoingInviteTimer]) else k.

Fixpoint seconds_pass (n : nat) (k : State * bool) : State * bool :=
  match n with
  | O => k
  | S n => seconds_pass n (second_passes k)
  end.

(** A use of the invite control: the arguments of [handleSendInvite] and
    what the environment answers. *)
Record Attempt : Type :=
  { socket_connected : bool;
    inviteeUserId : Z;
    inviteeName : option string;
    settles : PostResult }.


(** ** Sample states *)

Definition alice_hello : ChatMessage :=
  {| id := IdNum 42; sender := "Alice"; text := "hello" |}.

(** A client in room 7 that has received one message. *)
Definition in_room : State :=
  {| message := ""; isSocketRegistered := true; outgoingInvite := None;
     outgoingInviteTimer := 15; sessionRoom := Some "room-7";
     messages := [alice_hello]; newMessage := "" |}.

(** Alice, in room 7 with an empty chat, has typed " hello ". *)
Definition typing_hello : State :=
  {| message := ""; isSocketRegistered := true; outgoingInvite := None;
     outgoingInviteTimer := 15; sessionRoom := Some "room-7";
     messages := []; newMessage := " hello " |}.


(** A logged-in client on the dashboard with no invitation out. *)
Definition idle : State :=
  {| message := ""; isSocketRegistered := true; outgoingInvite := None;
     outgoingInviteTimer := 15; sessionRoom := None;
     messages := []; newMessage := "" |}.

End App.

(* ===================================================================== *)
(** * PomodoroTimer.jsx: display, settings and the passing of seconds *)
(* ===================================================================== *)

Module TimerPanel.
Import PomodoroTimer.

(** [s.padStart(2, '0')]. *)
Definition padStart2 (s : string) : string :=
  match s with
  | EmptyString => "00"
  | String _ EmptyString => String "0" s
  | _ => s
  end.

(** [formatTime]: [Math.floor(t / 60)] and [t % 60], each padded to two
    characters, around a colon. *)
Definition formatTime (timeInSeconds : Z) : string :=
  let minutes := timeInSeconds / 60 in
  let seconds := Z.rem timeInSeconds 60 in
  (padStart2 (show minutes) ++ ":" ++ padStart2 (show seconds))%string.

(** [{ ...prev, [m]: v }]. *)
Definition set {A : Type} (prev : PerMode A) (m : Mode) (v : A) : PerMode A :=
  match m with
  | pomodoro => {| at_pomodoro := v; at_short := at_short prev; at_long := at_long prev |}
  | short => {| at_pomodoro := at_pomodoro prev; at_short := v; at_long := at_long prev |}
  | long => {| at_pomodoro := at_pomodoro prev; at_short := at_short prev; at_long := v |}
  end.

(** The commands of the settings handlers: the two setters of the
    per-mode objects, both used with an updater ([prev => ...]), besides
    the commands of the timer itself. *)
Inductive SettingsCmd : Type :=
| setSelectedPreset (f : PerMode nat -> PerMode nat)
| setCustomDurations (f : PerMode Z -> PerMode Z)
| timer (c : Cmd).

Definition apply_settings (s : State) (c : SettingsCmd) : State :=
  match c with
  | setSelectedPreset f =>
      {| timeRemaining := timeRemaining s; isRunning := isRunning s; mode := mode s;
         hasCompletedPomodoro := hasCompletedPomodoro s;
         pomodoroCount := pomodoroCount s; autoStartBreaks := autoStartBreaks s;
         customDurations := customDurations s; selectedPreset := f (selectedPreset s) |}
  | setCustomDurations f =>
      {| timeRemaining := timeRemaining s; isRunning := isRunning s; mode := mode s;
         hasCompletedPomodoro := hasCompletedPomodoro s;
         pomodoroCount := pomodoroCount s; autoStartBreaks := autoStartBreaks s;
         customDurations := f (customDurations s); selectedPreset := selectedPreset s |}
  | timer c => apply_cmd s c
  end.

Definition run_settings (s : State) (cs : list SettingsCmd) : State :=
  fold_left apply_settings cs s.

Fixpoint emitted_settings (cs : list SettingsCmd) : list Emitted :=
  match cs with
  | [] => []
  | timer (Emit e) :: cs => e :: emitted_settings cs
  | _ :: cs => emitted_settings cs
  end.

Definition handlePresetChange (p : Props) (c : State) (newPresetIndex : nat)
    : list SettingsCmd :=
  [setSelectedPreset (fun prev => set prev (mode c) newPresetIndex)]
    ++ match nth_error (TIMER_PRESETS (mode c)) newPresetIndex with
       | Some {| preset_time := Some t |} =>
           [timer (setTimeRemaining t)]
             ++ map timer (sendTimerAction p c "set_mode" (Some t) (Some (mode c)))
       | _ => []
       end.

(** [handleCustomDurationChange], for an integral number of seconds. *)
Definition handleCustomDurationChange (p : Props) (c : State) (newDuration : Z)
    : list SettingsCmd :=
  [ setCustomDurations (fun prev => set prev (mode c) newDuration);
    timer (setTimeRemaining newDuration) ]
    ++ map timer (sendTimerAction p c "set_mode" (Some newDuration) (Some (mode c))).

(** Each of the two updaters builds a new object, so the render that
    follows sees a changed dependency of the mount/mode effect. *)
Definition replaces_settings (c : SettingsCmd) : bool :=
  match c with
  | setSelectedPreset _ | setCustomDurations _ => true
  | timer _ => false
  end.

(** The commit of a settings handler: the setters are applied and the
    mount/mode effect runs when [mode], [selectedPreset] or
    [customDurations] is new. *)
Definition commit_settings (s : State) (cs : list SettingsCmd) : State :=
  let s' := run_settings s cs in
  if existsb replaces_settings cs || negb (Mode_eqb (mode s') (mode s))
  then run s' (initDurationEffect s')
  else s'.

(** [n] seconds pass: every second the interval, if the countdown effect
    of the current render installed it, fires once. *)
Fixpoint seconds (p : Props) (n : nat) (s : State) : State :=
  match n with
  | O => s
  | S n =>
      if interval (countdownEffect p s) then seconds p n (countdownTick s) else s
  end.

End TimerPanel.

(* ===================================================================== *)
(** * App.jsx: looking up the session partner *)
(* ===================================================================== *)

Module PartnerLookup.

(** What [/api/sessions/partner] answers with, as kept in [sessionPartner]. *)
Record Partner : Type :=
  { partner_name : string;
    are_friends : bool;
    partner_online : bool;
    friend_request_status : option string;
    friend_request_id : option Z }.

(** How one [axios.get] settles: it resolves with [response.data] present
    or not, or it rejects with [error.response?.status] present or not. *)
Inductive GetResult : Type :=
| Resolved (data : option Partner)
| Rejected (status : option Z).

Inductive Cmd : Type :=
| get_partner (room_id : string)
| wait (ms : Z)
| setSessionPartner (data : Partner)
| setMessage (m : string).

Definition is_404 (status : option Z) : bool :=
  match status with
  | Some n => n =? 404
  | None => false
  end.

(** The [for] loop of [fetchSessionPartner] from iteration [attempt] on,
    with [togo] iterations to go.  [token i] tells whether the token is in
    local storage at iteration [i]; [answer i] is how the request of
    iteration [i] settles. *)
Fixpoint lookup_from (roomId : string) (retries : nat)
    (token : nat -> bool) (answer : nat -> GetResult)
    (togo attempt : nat) : list Cmd :=
  match togo with
  | O => []
  | S togo =>
      if negb (token attempt) then []
      else
        get_partner roomId
          :: match answer attempt with
             | Resolved (Some data) => [setSessionPartner data]
             | Resolved None =>
                 lookup_from roomId retries token answer togo (S attempt)
             | Rejected status =>
                 if is_404 status && (S attempt <? retries)%nat then
                   wait ((Z.of_nat attempt + 1) * 1000)
                     :: lookup_from roomId retries token answer togo (S attempt)
                 else if negb (is_404 status) then
                   [setMessage "Could not load partner information. Please refresh the page."]
                 else []
             end
  end.

(** [fetchSessionPartner(roomId, retries = 8)]. *)
Definition fetchSessionPartner (roomId : option string) (retries : nat)
    (token : nat -> bool) (answer : nat -> GetResult) : list Cmd :=
  match roomId with
  | Some r =>
      if String.eqb r "" then []
      else lookup_from r retries token answer retries 0
  | None => []
  end.

(** The number of requests in a command list and the time spent waiting. *)
Fixpoint requests_made (cs : list Cmd) : nat :=
  match cs with
  | [] => 0
  | get_partner _ :: cs => S (requests_made cs)
  | _ :: cs => requests_made cs
  end.

Fixpoint waited (cs : list Cmd) : Z :=
  match cs with
  | [] => 0
  | wait ms :: cs => ms + waited cs
  | _ :: cs => waited cs
  end.

(** The command list of [k] rounds of "request, then wait", the waits
    growing by a second each round, starting at round [a]. *)
Fixpoint backoff (roomId : string) (a k : nat) : list Cmd :=
  match k with
  | O => []
  | S k => get_partner roomId :: wait ((Z.of_nat a + 1) * 1000) :: backoff roomId (S a) k
  end.

End PartnerLookup.

(* ===================================================================== *)
(** * App.jsx: the invitee, the session room and the rating *)
(* ===================================================================== *)

Module Session.

(** [data.inviter] of an [invite_received] event. *)
Record Inviter : Type :=
  { user_id : Z;
    name : string;
    study_goal : string }.

Record MeetRequest : Type :=
  { requester_id : Z;
    requester_name : string }.

(** The list of candidates that a match search returned; the handlers
    below only ever clear the cell that holds it. *)
Record MatchResults : Type := { candidates : list Z }.

(** The state cells of [App], grouped: those of module [App] above, the
    incoming invitation, the running session, the video-call request and
    the rating modal. *)
Record Invitee : Type :=
  { incomingInvite : option Inviter;
    inviteTimer : Z }.

Record Room : Type :=
  { sessionId : option Z;
    pomodoroCount : Z;
    sessionPartner : option PartnerLookup.Partner;
    matchResults : option MatchResults }.

Record Meet : Type :=
  { googleMeetRequest : option MeetRequest;
    googleMeetAccepted : bool;
    googleMeetLink : option string }.

Record Rating : Type :=
  { showRatingModal : bool;
    sessionIdForRating : option Z;
    roomIdForRating : option string;
    sessionRating : Z;
    matchmakingRating : Z;
    feedbackText : string }.

Record State : Type :=
  { app : App.State;
    invitee : Invitee;
    room : Room;
    meet : Meet;
    rating : Rating }.

Inductive Emitted : Type :=
| join_room (room_id : string)
| leave_room (room_id : string)
| accept_invitation (inviter_user_id : Z)
| decline_invitation (inviter_user_id : Z).

(** The body of [POST /api/sessions/rate]; [None] is a JSON [null]. *)
Record RateBody : Type :=
  { rate_session_id : option Z;
    rate_room_id : option string;
    rate_session_rating : option Z;
    rate_matchmaking_rating : option Z;
    rate_feedback_text : option string }.

Inductive Cmd : Type :=
| app_cmd (c : App.Cmd)
| setSessionRoom (r : option string)
| setIncomingInvite (i : option Inviter)
| setInviteTimer (n : Z)
| tickInviteTimer
| setSessionId (i : option Z)
| setPomodoroCount (n : Z)
| addPomodoro
| setSessionPartner (p : option PartnerLookup.Partner)
| setMatchResults (m : option MatchResults)
| setGoogleMeetRequest (r : option MeetRequest)
| setGoogleMeetAccepted (b : bool)
| setGoogleMeetLink (l : option string)
| setShowRatingModal (b : bool)
| setSessionIdForRating (i : option Z)
| setRoomIdForRating (r : option string)
| setSessionRating (n : Z)
| setMatchmakingRating (n : Z)
| setFeedbackText (t : string)
| emit (e : Emitted)
| post_sessions_end (session_id : Z) (pomodoro_count : Z)
| post_sessions_rate (body : RateBody)
| fetchSessionPartner_after (ms : Z) (room_id : string)
| notify (body : string)
| requestPermission_then_notify (body : string).

Definition with_sessionRoom (a : App.State) (r : option string) : App.State :=
  {| App.message := App.message a;
     App.isSocketRegistered := App.isSocketRegistered a;
     App.outgoingInvite := App.outgoingInvite a;
     App.outgoingInviteTimer := App.outgoingInviteTimer a;
     App.sessionRoom := r;
     App.messages := App.messages a;
     App.newMessage := App.newMessage a |}.

Definition with_app (s : State) (a : App.State) : State :=
  {| app := a; invitee := invitee s; room := room s; meet := meet s; rating := rating s |}.

Definition with_invitee (s : State) (i : Invitee) : State :=
  {| app := app s; invitee := i; room := room s; meet := meet s; rating := rating s |}.

Definition with_room (s : State) (r : Room) : State :=
  {| app := app s; invitee := invitee s; room := r; meet := meet s; rating := rating s |}.

Definition with_meet (s : State) (m : Meet) : State :=
  {| app := app s; invitee := invitee s; room := room s; meet := m; rating := rating s |}.

Definition with_rating (s : State) (r : Rating) : State :=
  {| app := app s; invitee := invitee s; room := room s; meet := meet s; rating := r |}.

Definition apply_cmd (s : State) (c : Cmd) : State :=
  match c with
  | app_cmd c => with_app s (App.apply_cmd (app s) c)
  | setSessionRoom r => with_app s (with_sessionRoom (app s) r)
  | setIncomingInvite i =>
      with_invitee s {| incomingInvite := i; inviteTimer := inviteTimer (invitee s) |}
  | setInviteTimer n =>
      with_invitee s {| incomingInvite := incomingInvite (invitee s); inviteTimer := n |}
  | tickInviteTimer =>
      with_invitee s {| incomingInvite := incomingInvite (invitee s);
                        inviteTimer := inviteTimer (invitee s) - 1 |}
  | setSessionId i =>
      with_room s {| sessionId := i; pomodoroCount := pomodoroCount (room s);
                     sessionPartner := sessionPartner (room s);
                     matchResults := matchResults (room s) |}
  | setPomodoroCount n =>
      with_room s {| sessionId := sessionId (room s); pomodoroCount := n;
                     sessionPartner := sessionPartner (room s);
                     matchResults := matchResults (room s) |}
  | addPomodoro =>
      with_room s {| sessionId := sessionId (room s);
                     pomodoroCount := pomodoroCount (room s) + 1;
                     sessionPartner := sessionPartner (room s);
                     matchResults := matchResults (room s) |}
  | setSessionPartner p =>
      with_room s {| sessionId := sessionId (room s);
                     pomodoroCount := pomodoroCount (room s);
                     sessionPartner := p;
                     matchResults := matchResults (room s) |}
  | setMatchResults m =>
      with_room s {| sessionId := sessionId (room s);
                     pomodoroCount := pomodoroCount (room s);
                     sessionPartner := sessionPartner (room s);
                     matchResults := m |}
  | setGoogleMeetRequest r =>
      with_meet s {| googleMeetRequest := r;
                     googleMeetAccepted := googleMeetAccepted (meet s);
                     googleMeetLink := googleMeetLink (meet s) |}
  | setGoogleMeetAccepted b =>
      with_meet s {| googleMeetRequest := googleMeetRequest (meet s);
                     googleMeetAccepted := b;
                     googleMeetLink := googleMeetLink (meet s) |}
  | setGoogleMeetLink l =>
      with_meet s {| googleMeetRequest := googleMeetRequest (meet s);
                     googleMeetAccepted := googleMeetAccepted (meet s);
                     googleMeetLink := l |}
  | setShowRatingModal b =>
      with_rating s {| showRatingModal := b;
                       sessionIdForRating := sessionIdForRating (rating s);
                       roomIdForRating := roomIdForRating (rating s);
                       sessionRating := sessionRating (rating s);
                       matchmakingRating := matchmakingRating (rating s);
                       feedbackText := feedbackText (rating s) |}
  | setSessionIdForRating i =>
      with_rating s {| showRatingModal := showRatingModal (rating s);
                       sessionIdForRating := i;
                       roomIdForRating := roomIdForRating (rating s);
                       sessionRating := sessionRating (rating s);
                       matchmakingRating := matchmakingRating (rating s);
                       feedbackText := feedbackText (rating s) |}
  | setRoomIdForRating r =>
      with_rating s {| showRatingModal := showRatingModal (rating s);
                       sessionIdForRating := sessionIdForRating (rating s);
                       roomIdForRating := r;
                       sessionRating := sessionRating (rating s);
                       matchmakingRating := matchmakingRating (rating s);
                       feedbackText := feedbackText (rating s) |}
  | setSessionRating n =>
      with_rating s {| showRatingModal := showRatingModal (rating s);
                       sessionIdForRating := sessionIdForRating (rating s);
                       roomIdForRating := roomIdForRating (rating s);
                       sessionRating := n;
                       matchmakingRating := matchmakingRating (rating s);
                       feedbackText := feedbackText (rating s) |}
  | setMatchmakingRating n =>
      with_rating s {| showRatingModal := showRatingModal (rating s);
                       sessionIdForRating := sessionIdForRating (rating s);
                       roomIdForRating := roomIdForRating (rating s);
                       sessionRating := sessionRating (rating s);
                       matchmakingRating := n;
                       feedbackText := feedbackText (rating s) |}
  | setFeedbackText t =>
      with_rating s {| showRatingModal := showRatingModal (rating s);
                       sessionIdForRating := sessionIdForRating (rating s);
                       roomIdForRating := roomIdForRating (rating s);
                       sessionRating := sessionRating (rating s);
                       matchmakingRating := matchmakingRating (rating s);
                       feedbackText := t |}
  | emit _ | post_sessions_end _ _ | post_sessions_rate _
  | fetchSessionPartner_after _ _ | notify _ | requestPermission_then_notify _ => s
  end.

Definition run (s : State) (cs : list Cmd) : State := fold_left apply_cmd cs s.

Fixpoint emitted (cs : list Cmd) : list Emitted :=
  match cs with
  | [] => []
  | emit e :: cs => e :: emitted cs
  | _ :: cs => emitted cs
  end.

(** The session-end requests of a command list: [(session_id, pomodoro_count)]. *)
Fixpoint ended (cs : list Cmd) : list (Z * Z) :=
  match cs with
  | [] => []
  | post_sessions_end i n :: cs => (i, n) :: ended cs
  | _ :: cs => ended cs
  end.

Fixpoint rated (cs : list Cmd) : list RateBody :=
  match cs with
  | [] => []
  | post_sessions_rate b :: cs => b :: rated cs
  | _ :: cs => rated cs
  end.

(** Truthiness of a nullable number, and [x || null]. *)
Definition truthy_number (n : option Z) : bool :=
  match n with
  | Some n => negb (n =? 0)
  | None => false
  end.

Definition number_or_null (n : option Z) : option Z :=
  if truthy_number n then n else None.

Definition string_or_null (s : option string) : option string :=
  if truthy s then s else None.

(** ** The invitee *)

(** [Notification.permission], or no [Notification] in [window] at all. *)
Inductive Permission : Type := granted | default | denied | unsupported.

(** [handleInviteReceived(data)]; [data] is [None] when the event carries
    no [inviter]. *)
Definition handleInviteReceived (permission : Permission) (data : option Inviter)
    : list Cmd :=
  match data with
  | Some inv =>
      [setIncomingInvite (Some inv); setInviteTimer 15]
        ++ match permission with
           | granted => [notify (name inv ++ " wants to study with you!")%string]
           | default =>
               [requestPermission_then_notify
                  (name inv ++ " wants to study with you!")%string]
           | _ => []
           end
  | None => []
  end.

(** One run of the incoming-invite timer effect: its commands and whether
    it armed the one-second timeout. *)
Definition incomingInviteEffect (c : State) : list Cmd * bool :=
  match incomingInvite (invitee c) with
  | None => ([setInviteTimer 15], false)
  | Some _ =>
      if inviteTimer (invitee c) <=? 0 then
        ([setIncomingInvite None; setInviteTimer 15], false)
      else ([], true)
  end.

Definition Inviter_eqb (a b : Inviter) : bool :=
  (user_id a =? user_id b) && String.eqb (name a) (name b)
  && String.eqb (study_goal a) (study_goal b).

(** Whether [[incomingInvite, inviteTimer]] is the same in two renders (the
    effect itself only ever stores [null] in the first). *)
Definition same_invitee (a b : State) : bool :=
  match incomingInvite (invitee a), incomingInvite (invitee b) with
  | None, None => true
  | Some x, Some y => Inviter_eqb x y
  | _, _ => false
  end
  && (inviteTimer (invitee a) =? inviteTimer (invitee b)).

Fixpoint rerender (fuel : nat) (s : State) : State * bool :=
  let '(cs, armed) := incomingInviteEffect s in
  let s' := run s cs in
  match fuel with
  | O => (s', armed)
  | S fuel => if same_invitee s s' then (s', armed) else rerender fuel s'
  end.

Definition settle (s : State) : State * bool := rerender 2 s.

(** One second passes for the incoming-invite countdown. *)
Definition second_passes (k : State * bool) : State * bool :=
  let '(s, armed) := k in
  if armed then settle (run s [tickInviteTimer]) else k.

Fixpoint seconds_pass (n : nat) (k : State * bool) : State * bool :=
  match n with
  | O => k
  | S n => seconds_pass n (second_passes k)
  end.

(** [handleAcceptInvite], up to and including the emit; [connected] is
    [socket.connected]. *)
Definition handleAcceptInvite (c : State) (connected : bool) : list Cmd :=
  match incomingInvite (invitee c) with
  | None => [app_cmd (App.setMessage "Error: No invite to accept")]
  | Some inv =>
      if negb connected then
        [app_cmd (App.setMessage
                    "Error: Not connected to server. Please refresh the page.")]
      else
        [ app_cmd (App.setMessage "Accepting invitation...");
          emit (accept_invitation (user_id inv)) ]
  end.

(** What ends the wait that [handleAcceptInvite] sets up: its own
    [match_confirmed] listener (or its half-second check of the session
    room, which like that listener only cleans up), its own [error]
    listener, or its 15-second timeout.  Each of them calls [cleanup],
    which removes the others, so only the first one to happen has an
    effect. *)
Inductive AcceptOutcome : Type :=
| confirmed
| failed (message : option string)
| unanswered.

Definition afterAccept (o : AcceptOutcome) : list Cmd :=
  match o with
  | confirmed => []
  | failed m =>
      [ app_cmd (App.setMessage
                   ("Error: " ++ (if truthy m
                                  then match m with Some x => x | None => "" end
                                  else "Failed to accept invitation"))%string);
        setIncomingInvite None ]
  | unanswered =>
      [ app_cmd (App.setMessage
                   "Error: No response from server. Please try again or refresh the page.");
        setIncomingInvite None ]
  end.

Definition handleDeclineInvite (c : State) (connected : bool) : list Cmd :=
  match incomingInvite (invitee c) with
  | None => []
  | Some inv =>
      (if connected then [emit (decline_invitation (user_id inv))] else [])
        ++ [setIncomingInvite None; setInviteTimer 15]
  end.

(** ** The session room *)

(** The payload of [match_confirmed]. *)
Record MatchConfirmed : Type :=
  { room_id : option string;
    session_id : option Z;
    invitee_name : option string }.

Definition same_room (a b : option string) : bool :=
  match a, b with
  | Some x, Some y => String.eqb x y
  | None, None => true
  | _, _ => false
  end.

(** [handleMatchConfirmed(data)].  The listener is created inside the
    effect with the empty dependency array, so the snapshot [c] it closes
    over is the one of the first render. *)
Definition handleMatchConfirmed (c : State) (data : MatchConfirmed) : list Cmd :=
  match room_id data with
  | None => [app_cmd (App.setMessage "Error: Invalid session data received")]
  | Some r =>
      if String.eqb r "" then
        [app_cmd (App.setMessage "Error: Invalid session data received")]
      else if same_room (App.sessionRoom (app c)) (room_id data) then []
      else
        let isInviter := negb (truthy (invitee_name data)) in
        let delay := if isInviter then 2500 else 1500 in
        [ setSessionRoom (Some r);
          setSessionId (session_id data);
          setPomodoroCount 0;
          setIncomingInvite None;
          app_cmd (App.setOutgoingInvite None);
          setInviteTimer 15;
          app_cmd (App.setOutgoingInviteTimer 15);
          setGoogleMeetRequest None;
          setGoogleMeetAccepted false;
          setGoogleMeetLink None;
          setMatchResults None;
          app_cmd (App.setMessages (fun _ => []));
          emit (join_room r);
          fetchSessionPartner_after delay r;
          app_cmd (App.setMessage
                     (if truthy (invitee_name data)
                      then ("Session started with "
                              ++ match invitee_name data with Some n => n | None => "" end
                              ++ "! Joined room: " ++ r)%string
                      else ("Session started! Joined room: " ++ r)%string)) ]
  end.

(** The [onPomodoroComplete] prop that [App] hands to the timer. *)
Definition onPomodoroComplete : list Cmd := [addPomodoro].

Definition endCurrentSession (c : State) : list Cmd :=
  match sessionId (room c) with
  | Some i => if i =? 0 then [] else [post_sessions_end i (pomodoroCount (room c))]
  | None => []
  end.

Definition handleLeaveSession (c : State) (connected : bool) : list Cmd :=
  let currentSessionId := sessionId (room c) in
  let currentRoomId := App.sessionRoom (app c) in
  (match App.sessionRoom (app c) with
   | Some r => if negb (String.eqb r "") && connected then [emit (leave_room r)] else []
   | None => []
   end)
    ++ endCurrentSession c
    ++ [ setSessionRoom None;
         setSessionId None;
         setPomodoroCount 0;
         app_cmd (App.setMessages (fun _ => []));
         setSessionPartner None;
         app_cmd (App.setMessage "Left study session") ]
    ++ (if truthy_number currentSessionId || truthy currentRoomId then
          [ setSessionIdForRating currentSessionId;
            setRoomIdForRating currentRoomId;
            setSessionRating 0;
            setMatchmakingRating 0;
            setFeedbackText "";
            setShowRatingModal true ]
        else []).

(** The effect on [[sessionId]] does nothing when it runs and returns a
    cleanup, [if (sessionId) endCurrentSession()], which React calls before
    the effect runs again, that is in the commit in which [sessionId] has
    changed.  The cleanup and the [endCurrentSession] it calls belong to the
    render in which the effect last ran: [c0] is the snapshot of that
    render, the one in which [sessionId] took its present value. *)
Definition sessionCleanup (c0 : State) : list Cmd :=
  if truthy_number (sessionId (room c0)) then endCurrentSession c0 else [].

(** [Object.is] on the nullable session id. *)
Definition same_sessionId (a b : option Z) : bool :=
  match a, b with
  | Some x, Some y => x =? y
  | None, None => true
  | _, _ => false
  end.

(** Everything a handler run from snapshot [c] causes: its own commands
    and then, when the commit that follows leaves [sessionId] different
    from the one the effect last saw, the cleanup. *)
Definition and_commit (c0 c : State) (cs : list Cmd) : list Cmd :=
  cs ++ (if same_sessionId (sessionId (room (run c cs))) (sessionId (room c0))
         then [] else sessionCleanup c0).

(** The snapshot that the effect holds after that commit: the new render
    when [sessionId] has changed, the old snapshot otherwise. *)
Definition snapshot_after (c0 c : State) (cs : list Cmd) : State :=
  if same_sessionId (sessionId (room (run c cs))) (sessionId (room c0))
  then c0 else run c cs.

(** Leaving, with the commit that follows. *)
Definition leaveSession (c0 c : State) (connected : bool) : list Cmd :=
  and_commit c0 c (handleLeaveSession c connected).

(** ** The rating modal *)

Definition handleSkipRating : list Cmd :=
  [ setShowRatingModal false;
    setSessionIdForRating None;
    setRoomIdForRating None;
    setSessionRating 0;
    setMatchmakingRating 0;
    setFeedbackText "" ].

(** [handleSubmitRating]; [res] is how the request settles once sent. *)
Definition handleSubmitRating (c : State) (res : App.PostResult) : list Cmd :=
  if negb (truthy_number (sessionIdForRating (rating c)))
     && negb (truthy (roomIdForRating (rating c))) then []
  else if (sessionRating (rating c) =? 0) && (matchmakingRating (rating c) =? 0) then
    [app_cmd (App.setMessage "Please provide at least one rating")]
  else
    [ post_sessions_rate
        {| rate_session_id := number_or_null (sessionIdForRating (rating c));
           rate_room_id := string_or_null (roomIdForRating (rating c));
           rate_session_rating := number_or_null (Some (sessionRating (rating c)));
           rate_matchmaking_rating := number_or_null (Some (matchmakingRating (rating c)));
           rate_feedback_text := string_or_null (Some (feedbackText (rating c))) |} ]
      ++ match res with
         | App.Resolved =>
             [ app_cmd (App.setMessage "Thank you for your feedback!");
               setShowRatingModal false;
               setSessionIdForRating None;
               setRoomIdForRating None;
               setSessionRating 0;
               setMatchmakingRating 0;
               setFeedbackText "" ]
         | App.Rejected error =>
             [ app_cmd (App.setMessage
                          ("Error: " ++ (if truthy error
                                         then match error with Some e => e | None => "" end
                                         else "Could not submit rating"))%string) ]
         end.

(** ** Sample states *)

(** The first render: nothing typed, nobody invited, no session. *)
Definition mounted : State :=
  {| app := App.idle;
     invitee := {| incomingInvite := None; inviteTimer := 15 |};
     room := {| sessionId := None; pomodoroCount := 0; sessionPartner := None;
                matchResults := None |};
     meet := {| googleMeetRequest := None; googleMeetAccepted := false;
                googleMeetLink := None |};
     rating := {| showRatingModal := false; sessionIdForRating := None;
                  roomIdForRating := None; sessionRating := 0;
                  matchmakingRating := 0; feedbackText := "" |} |}.

Definition alice : Inviter :=
  {| user_id := 4; name := "Alice"; study_goal := "Linear algebra" |}.

(** In room 7, session 31, with one chat message received. *)
Definition in_session : State :=
  {| app := App.in_room;
     invitee := {| incomingInvite := None; inviteTimer := 15 |};
     room := {| sessionId := Some 31; pomodoroCount := 2; sessionPartner := None;
                matchResults := None |};
     meet := {| googleMeetRequest := None; googleMeetAccepted := false;
                googleMeetLink := None |};
     rating := {| showRatingModal := false; sessionIdForRating := None;
                  roomIdForRating := None; sessionRating := 0;
                  matchmakingRating := 0; feedbackText := "" |} |}.

End Session.

(* ===================================================================== *)
(** * The runtime helpers on sample inputs *)
(* ===================================================================== *)

Module Runtime.

Example trim_both_ends :
  trim (String (ascii_of_nat 9) "  hello world  ") = "hello world".
Proof. reflexivity. Qed.

Example trim_blank : trim "   " = "".
Proof. reflexivity. Qed.

Example includes_not_online :
  includes "User is not online" "not online" = true
  /\ includes "Could not send invite" "not online" = false.
Proof. split; reflexivity. Qed.

Example show_timestamp : show 1700000000000 = "1700000000000".
Proof. reflexivity. Qed.

Example number_or_zero : number_or (Some 0) 700 = 700 /\ number_or (Some 5) 700 = 5.
Proof. split; reflexivity. Qed.

Lemma trimStart_no_leading_space (s : string) :
  match trimStart s with
  | String c _ => is_whitespace c = false
  | EmptyString => True
  end.
Proof.
  induction s as [|c r IH]; simpl; [exact I|].
  destruct (is_whitespace c) eqn:E; [exact IH|exact E].
Qed.

End Runtime.

(* ===================================================================== *)
(** * Properties of the synchronized timer *)
(* ===================================================================== *)

Module TimerSync.
Import PomodoroTimer.

Lemma Mode_eqb_spec (a b : Mode) : reflect (a = b) (Mode_eqb a b).
Proof. destruct a, b; simpl; constructor; congruence. Qed.


Lemma run_app (s : State) (xs ys : list Cmd) :
  run s (xs ++ ys) = run (run s xs) ys.
Proof. apply fold_left_app. Qed.

Lemma emitted_app (xs ys : list Cmd) :
  emitted (xs ++ ys) = emitted xs ++ emitted ys.
Proof.
  induction xs as [|x xs IH]; [reflexivity|].
  destruct x; simpl; now rewrite ?IH.
Qed.

(** The setters leave the per-mode settings alone, so the duration of a
    mode is the same before and after any command list. *)
Lemma durationOf_run (s : State) (cs : list Cmd) (m : Mode) :
  durationOf (run s cs) m = durationOf s m.
Proof.
  revert s; induction cs as [|c cs IH]; intros s; [reflexivity|].
  simpl. rewrite IH. now destruct c.
Qed.

Lemma sendTimerAction_explicit (p : Props) (c : State) (a : string) (t : Z) (m : Mode) :
  sendTimerAction p c a (Some t) (Some m) = [Emit (timer_action (sessionRoom p) a t m)].
Proof. reflexivity. Qed.

(** The pomodoro preset at index 0 is the 25-minute one. *)
Lemma classic_pomodoro_duration (c : State) :
  mode c = pomodoro -> get (selectedPreset c) pomodoro = 0%nat ->
  getCurrentDuration c = 1500.
Proof.
  intros Hm Hp. unfold getCurrentDuration, durationOf.
  rewrite Hm, Hp. reflexivity.
Qed.

(** ** Reset *)

(** The full duration of each mode under each preset, as the reset control
    computes it from the preset table. *)
Lemma getCurrentDuration_table (c : State) :
  getCurrentDuration c
    = match mode c, get (selectedPreset c) (mode c) with
      | pomodoro, 0%nat => 1500
      | pomodoro, 1%nat => 900
      | pomodoro, 2%nat => 2700
      | short, 0%nat => 180
      | short, 1%nat => 300
      | short, 2%nat => 600
      | long, 0%nat => 600
      | long, 1%nat => 900
      | long, 2%nat => 1800
      | m, _ => get (customDurations c) m
      end.
Proof.
  unfold getCurrentDuration, durationOf.
  destruct (mode c); cbn [get TIMER_PRESETS];
    match goal with
    | |- context [nth_error _ ?i] => destruct i as [|[|[|[|[|k]]]]]; reflexivity
    end.
Qed.

(** C2. Whatever the remaining time and the running flag are when the
    reset control is used, it emits the single event [reset] that carries
    the current mode and the full duration of that mode under the selected
    preset: 1500, 900 or 2700 seconds for the pomodoro presets, 180, 300 or
    600 for the short break, 600, 900 or 1800 for the long break, and the
    custom duration of the mode when the selected entry has no time of its
    own.  The client that resets is left at that same time, not running. *)
Theorem handleReset_emits_full_duration (p : Props) (c : State) :
  let full := match mode c, get (selectedPreset c) (mode c) with
              | pomodoro, 0%nat => 1500
              | pomodoro, 1%nat => 900
              | pomodoro, 2%nat => 2700
              | short, 0%nat => 180
              | short, 1%nat => 300
              | short, 2%nat => 600
              | long, 0%nat => 600
              | long, 1%nat => 900
              | long, 2%nat => 1800
              | m, _ => get (customDurations c) m
              end in
  emitted (handleReset p c) = [timer_action (sessionRoom p) "reset" full (mode c)]
  /\ (forall (t : Z) (b : bool),
        emitted (handleReset p (run c [setTimeRemaining t; setIsRunning b]))
          = emitted (handleReset p c))
  /\ timeRemaining (run c (handleReset p c)) = full
  /\ isRunning (run c (handleReset p c)) = false.
Proof.
  cbv zeta. rewrite <- getCurrentDuration_table.
  assert (E : forall c' : State,
             emitted (handleReset p c')
               = [timer_action (sessionRoom p) "reset" (getCurrentDuration c') (mode c')]).
  { intros c'. unfold handleReset. now rewrite sendTimerAction_explicit. }
  split; [apply E|]. split.
  - intros t b. rewrite !E. reflexivity.
  - unfold handleReset. rewrite run_app, sendTimerAction_explicit. split; reflexivity.
Qed.

(** A client 180 seconds into its standard short break resets: 300 is
    sent, not the 120 that are left. *)
Lemma handleReset_emits_full_duration_witness :
  emitted (handleReset {| sessionRoom := "room-7"; onPomodoroComplete := true |}
             (run initial [setMode short; setTimeRemaining 120; setIsRunning true]))
    = [timer_action "room-7" "reset" 300 short].
Proof.
  exact (proj1 (handleReset_emits_full_duration
                  {| sessionRoom := "room-7"; onPomodoroComplete := true |}
                  (run initial [setMode short; setTimeRemaining 120; setIsRunning true]))).
Defined.


(** The reset case adopts a carried mode, with or without a carried time. *)
Lemma reset_update_mode (c : State) (t : option Z) (m : option Mode) :
  mode (run c (handleTimerUpdate c
                 {| data_action := "reset"; data_time := t; data_mode := m |}))
    = match m with Some m' => m' | None => mode c end.
Proof.
  unfold handleTimerUpdate; simpl.
  destruct m as [m'|]; simpl; [|reflexivity].
  destruct (Mode_eqb_spec m' (mode c)) as [->|Hne]; reflexivity.
Qed.

Lemma reset_update_time (c : State) (t : Z) (m : option Mode) :
  timeRemaining (run c (handleTimerUpdate c
                          {| data_action := "reset"; data_time := Some t;
                             data_mode := m |}))
    = t.
Proof.
  unfold handleTimerUpdate; simpl.
  destruct m as [m'|]; simpl; [|reflexivity].
  destruct (Mode_eqb m' (mode c)); reflexivity.
Qed.

(** The setters that the reset case queues for a carried time [t]: the
    time [t] itself, the running flag false, the carried mode if any. *)
Lemma reset_update_setters (c : State) (t : Z) (m : option Mode) :
  let s := run c (handleTimerUpdate c
                    {| data_action := "reset"; data_time := Some t; data_mode := m |}) in
  timeRemaining s = t
  /\ isRunning s = false
  /\ mode s = match m with Some m' => m' | None => mode c end.
Proof.
  cbv zeta. split; [apply reset_update_time|]. split; [|apply reset_update_mode].
  unfold handleTimerUpdate; simpl.
  destruct m as [m'|]; simpl; [|reflexivity].
  destruct (Mode_eqb m' (mode c)); reflexivity.
Qed.

(** Without a carried time the listener falls back on the local duration
    of the target mode. *)
Lemma reset_update_fallback (c : State) (m : option Mode) :
  let s := run c (handleTimerUpdate c
                    {| data_action := "reset"; data_time := None; data_mode := m |}) in
  timeRemaining s = durationOf c (match m with Some m' => m' | None => mode c end).
Proof.
  unfold handleTimerUpdate; simpl.
  destruct m as [m'|]; simpl; [|reflexivity].
  destruct (Mode_eqb_spec m' (mode c)); reflexivity.
Qed.

(** ** The render that follows a listener *)

Lemma commit_mode (s : State) (cs : list Cmd) :
  mode (commit s cs) = mode (run s cs).
Proof. unfold commit. now destruct (Mode_eqb _ _). Qed.


Lemma commit_time (s : State) (cs : list Cmd) :
  timeRemaining (commit s cs)
    = if Mode_eqb (mode (run s cs)) (mode s)
      then timeRemaining (run s cs)
      else durationOf s (mode (run s cs)).
Proof.
  unfold commit. destruct (Mode_eqb _ _); [reflexivity|].
  unfold initDurationEffect, getCurrentDuration. simpl.
  apply durationOf_run.
Qed.


(** When the reset changes the receiver's mode, the render that follows
    re-runs the mount/mode effect, which stores the receiver's own duration
    for the new mode. *)
Lemma reset_commit_new_mode (c : State) (t : Z) (m' : Mode) :
  m' <> mode c ->
  timeRemaining
    (commit c (handleTimerUpdate c
                 {| data_action := "reset"; data_time := Some t; data_mode := Some m' |}))
    = durationOf c m'.
Proof.
  intros Hne. rewrite commit_time, reset_update_mode.
  now destruct (Mode_eqb_spec m' (mode c)).
Qed.







(** ** Start *)

(** A carried time other than zero seeds the countdown. *)
Lemma start_update_nonzero (c : State) (t : Z) (m : option Mode) :
  t <> 0 ->
  let s := run c (handleTimerUpdate c
                    {| data_action := "start"; data_time := Some t; data_mode := m |}) in
  timeRemaining s = t /\ isRunning s = true.
Proof.
  intros Ht. simpl. destruct (Z.eqb_spec t 0); [contradiction|auto].
Qed.

(** A carried time of zero is falsy in [data.time || timeRemaining]: the
    listener keeps the local remaining time and starts running. *)
Lemma start_update_zero (c : State) (m : option Mode) :
  let s := run c (handleTimerUpdate c
                    {| data_action := "start"; data_time := Some 0; data_mode := m |}) in
  timeRemaining s = timeRemaining c /\ isRunning s = true.
Proof. simpl. auto. Qed.

(** C4. A paused client with 700 seconds left receives the [start] that a
    peer whose timer sits at zero has sent ([handleStartPause] emits the
    sender's remaining time, here 0): the client starts running with 700
    seconds on its clock instead of 0. *)
Theorem start_update_zero_keeps_local_time :
  let sender := run initial [setTimeRemaining 0] in
  let receiver := run initial [setTimeRemaining 700] in
  let p := {| sessionRoom := "room-7"; onPomodoroComplete := false |} in
  emitted (handleStartPause p sender) = [timer_action "room-7" "start" 0 pomodoro]
  /\ let s := run receiver
               (handleTimerUpdate receiver
                  {| data_action := "start"; data_time := Some 0;
                     data_mode := Some pomodoro |}) in
     timeRemaining s = 700 /\ isRunning s = true.
Proof. cbv zeta. split; [reflexivity|split; reflexivity]. Qed.

(** ** Skip and completion *)

(** C5. The skip control emits one [timer_action] whose time is 0; a client
    that receives [skip], whatever else the payload holds, is left with a
    remaining time of 0 and running; in that state its own countdown effect
    takes the completion branch: no interval is installed, the running flag
    is cleared, and in pomodoro mode the client counts the interval and
    reports [pomodoro_completed] itself. *)
Theorem skip_forces_zero_then_local_completion
    (p : Props) (sender c : State) (t : option Z) (m : option Mode) :
  emitted (handleSkip p sender)
    = [timer_action (sessionRoom p) "skip" 0 (mode sender)]
  /\ let s := run c (handleTimerUpdate c
                      {| data_action := "skip"; data_time := t; data_mode := m |}) in
     timeRemaining s = 0
     /\ isRunning s = true
     /\ countdownEffect p s = timerCompletion p s
     /\ interval (countdownEffect p s) = false
     /\ isRunning (run s (now (countdownEffect p s))) = false
     /\ match mode c with
        | pomodoro =>
            pomodoroCount (run s (now (countdownEffect p s))) = pomodoroCount c + 1
            /\ emitted (now (countdownEffect p s)) = [pomodoro_completed (sessionRoom p)]
        | _ => emitted (now (countdownEffect p s)) = []
        end.
Proof.
  split; [reflexivity|].
  cbv zeta. unfold handleTimerUpdate; simpl.
  unfold countdownEffect, timerCompletion; simpl.
  destruct (mode c); simpl; repeat split; try reflexivity;
    rewrite ?run_app, ?emitted_app; simpl;
    destruct (onPomodoroComplete p); reflexivity.
Qed.

(** The start/pause control only emits; it sets nothing locally. *)
Lemma handleStartPause_run (p : Props) (c s : State) :
  run s (handleStartPause p c) = s.
Proof. unfold handleStartPause. now destruct (isRunning c), s. Qed.

(** The tick that takes a running timer from one second to zero hands over
    to the completion branch. *)
Lemma countdown_last_tick (p : Props) (c : State) :
  isRunning c = true -> timeRemaining c = 1 ->
  countdownEffect p (countdownTick c) = timerCompletion p (countdownTick c).
Proof.
  intros Hr Ht. unfold countdownEffect, countdownTick. simpl.
  rewrite Hr, Ht. reflexivity.
Qed.


(** C10. A running pomodoro interval reaches zero with auto-start on: the
    effect raises the completed-pomodoro count by exactly one, and the
    callback it schedules moves the client to the long break exactly when
    the new count is a multiple of 4 and to the short break otherwise. *)
Theorem pomodoro_completion_counts_and_advances (p : Props) (c : State) :
  isRunning c = true -> timeRemaining c = 0 -> mode c = pomodoro ->
  autoStartBreaks c = true ->
  let r := countdownEffect p c in
  let counted := run c (now r) in
  let advanced := run counted (after2s r) in
  pomodoroCount counted = pomodoroCount c + 1
  /\ pomodoroCount advanced = pomodoroCount c + 1
  /\ (mode advanced = long <-> (4 | pomodoroCount c + 1))
  /\ (mode advanced = short <-> ~ (4 | pomodoroCount c + 1)).
Proof.
  intros Hr Ht Hm Ha. cbv zeta.
  unfold countdownEffect, timerCompletion. rewrite Hr, Ht, Hm, Ha. simpl.
  rewrite <- (Z.rem_divide (pomodoroCount c + 1) 4) by lia.
  rewrite !run_app, handleStartPause_run.
  destruct (onPomodoroComplete p); simpl;
    destruct (Z.eqb_spec (Z.rem (pomodoroCount c + 1) 4) 0) as [E|E]; simpl;
    repeat split; intros; try reflexivity; try discriminate; congruence.
Qed.

(** The fourth pomodoro of a session is followed by the long break. *)
Lemma pomodoro_completion_counts_and_advances_witness :
  let p := {| sessionRoom := "room-7"; onPomodoroComplete := true |} in
  let c := run initial [setTimeRemaining 0; setIsRunning true; setPomodoroCount 3] in
  let r := countdownEffect p c in
  pomodoroCount (run c (now r)) = 4
  /\ (mode (run (run c (now r)) (after2s r)) = long <-> (4 | 4)).
Proof.
  cbv zeta.
  pose proof (pomodoro_completion_counts_and_advances
                {| sessionRoom := "room-7"; onPomodoroComplete := true |}
                (run initial [setTimeRemaining 0; setIsRunning true; setPomodoroCount 3])
                eq_refl eq_refl eq_refl eq_refl) as (H1 & _ & H3 & _).
  split; [exact H1|exact H3].
Defined.

End TimerSync.

(* ===================================================================== *)
(** * Properties of the chat list *)
(* ===================================================================== *)

Module Chat.
Import App.

Lemma strict_eq_spec (a b : MsgId) : reflect (a = b) (strict_eq a b).
Proof.
  destruct a as [x|x|], b as [y|y|]; simpl; try (constructor; congruence).
  - destruct (Z.eqb_spec x y); constructor; congruence.
  - destruct (String.eqb_spec x y); constructor; congruence.
Qed.

(** [prevMessages.some(msg => msg.id === messageData.id)] holds exactly
    when some listed message has the incoming id. *)
Lemma known_id_spec (m : ChatMessage) (ms : list ChatMessage) :
  existsb (fun msg => strict_eq (id msg) (id m)) ms = true
  <-> exists msg, In msg ms /\ id msg = id m.
Proof.
  rewrite existsb_exists. split; intros (msg & Hin & H); exists msg; split; auto.
  - now destruct (strict_eq_spec (id msg) (id m)).
  - now destruct (strict_eq_spec (id msg) (id m)).
Qed.

Lemma addMessage_known (m : ChatMessage) (ms : list ChatMessage) :
  (exists msg, In msg ms /\ id msg = id m) -> addMessage m ms = ms.
Proof.
  intros H. apply known_id_spec in H. unfold addMessage. now rewrite H.
Qed.

Lemma addMessage_fresh (m : ChatMessage) (ms : list ChatMessage) :
  (forall msg, In msg ms -> id msg <> id m) -> addMessage m ms = ms ++ [m].
Proof.
  intros H. unfold addMessage.
  destruct (existsb _ ms) eqn:E; [|reflexivity].
  apply known_id_spec in E. destruct E as (msg & Hin & Hid).
  now apply H in Hin.
Qed.

Lemma addMessage_twice (m : ChatMessage) (ms : list ChatMessage) :
  addMessage m (addMessage m ms) = addMessage m ms.
Proof.
  apply addMessage_known. unfold addMessage.
  destruct (existsb _ ms) eqn:E.
  - now apply known_id_spec.
  - exists m. split; [apply in_or_app; right; now left|reflexivity].
Qed.

Lemma run_setMessages (s : State) (f : list ChatMessage -> list ChatMessage) :
  f (messages s) = messages s -> run s [setMessages f] = s.
Proof. intros H. destruct s; simpl in *. now rewrite H. Qed.

(** C6. Processing [receive_message] for a message whose id is the id of a
    listed message leaves the client state as it was; for a message whose
    id is new the list grows by that message, once, at the end; and
    processing the same event a second time changes nothing. *)
Theorem receive_message_idempotent (s : State) (m : ChatMessage) :
  ((exists msg, In msg (messages s) /\ id msg = id m) ->
     run s (on_receive_message m) = s)
  /\ ((forall msg, In msg (messages s) -> id msg <> id m) ->
        messages (run s (on_receive_message m)) = messages s ++ [m])
  /\ run (run s (on_receive_message m)) (on_receive_message m)
       = run s (on_receive_message m).
Proof.
  unfold on_receive_message. repeat split.
  - intros H. apply run_setMessages. now apply addMessage_known.
  - intros H. simpl. now apply addMessage_fresh.
  - apply run_setMessages. simpl. apply addMessage_twice.
Qed.

(** A second delivery of message 42 is dropped; message 43 is appended. *)
Lemma receive_message_idempotent_witness :
  run in_room (on_receive_message alice_hello) = in_room
  /\ messages (run in_room (on_receive_message
                              {| id := IdNum 43; sender := "Bob"; text := "hi" |}))
       = [alice_hello; {| id := IdNum 43; sender := "Bob"; text := "hi" |}].
Proof.
  split.
  - apply (proj1 (receive_message_idempotent in_room alice_hello)).
    exists alice_hello. split; [now left|reflexivity].
  - apply (proj1 (proj2 (receive_message_idempotent in_room
                           {| id := IdNum 43; sender := "Bob"; text := "hi" |}))).
    intros msg [<-|[]]. discriminate.
Defined.

(** ** The optimistic copy *)

(** Sending appends the optimistic copy under its temporary id. *)
Lemma handleSendMessage_appends (s : State) (now : Z) :
  trim (newMessage s) <> "" -> truthy (sessionRoom s) = true ->
  messages (run s (handleSendMessage s now))
    = messages s ++ [tempMessage now (trim (newMessage s))].
Proof.
  intros Ht Hr. unfold handleSendMessage. rewrite Hr.
  destruct (String.eqb_spec (trim (newMessage s)) ""); [contradiction|reflexivity].
Qed.

(** The server's copy of a sent message arrives under the server's id, so
    the id test does not recognise the optimistic copy: the list ends with
    both. *)
Lemma echo_after_optimistic_copy (s : State) (now : Z) (echo : ChatMessage) :
  trim (newMessage s) <> "" -> truthy (sessionRoom s) = true ->
  (forall msg, In msg (messages s) -> id msg <> id echo) ->
  id echo <> id (tempMessage now (trim (newMessage s))) ->
  messages (run (run s (handleSendMessage s now)) (on_receive_message echo))
    = messages s ++ [tempMessage now (trim (newMessage s)); echo].
Proof.
  intros Ht Hr Hfresh Hne.
  unfold on_receive_message. simpl.
  rewrite handleSendMessage_appends by assumption.
  rewrite addMessage_fresh, <- app_assoc; [reflexivity|].
  intros msg Hin. apply in_app_or in Hin.
  destruct Hin as [Hin|[<-|[]]]; auto.
Qed.

Lemma with_text_app (t : string) (xs ys : list ChatMessage) :
  with_text t (xs ++ ys) = with_text t xs ++ with_text t ys.
Proof. apply filter_app. Qed.

(** Hence two visible messages with the sent text are added, not one. *)
Lemma echo_after_optimistic_copy_count (s : State) (now : Z) (echo : ChatMessage) :
  trim (newMessage s) <> "" -> truthy (sessionRoom s) = true ->
  (forall msg, In msg (messages s) -> id msg <> id echo) ->
  id echo <> id (tempMessage now (trim (newMessage s))) ->
  text echo = trim (newMessage s) ->
  List.length
    (with_text (trim (newMessage s))
       (messages (run (run s (handleSendMessage s now)) (on_receive_message echo))))
    = (List.length (with_text (trim (newMessage s)) (messages s)) + 2)%nat.
Proof.
  intros Ht Hr Hfresh Hne Htext.
  rewrite echo_after_optimistic_copy, with_text_app, List.length_app by assumption.
  f_equal. unfold with_text. simpl. rewrite Htext, String.eqb_refl. reflexivity.
Qed.

(** C1. Alice sends "hello" at time 1700000000000 and then receives the
    server's copy of it, which carries the server's id 42: her list shows
    the text twice, once under the temporary id and once under 42. *)
Theorem optimistic_copy_and_echo_both_shown :
  let sent := run typing_hello (handleSendMessage typing_hello 1700000000000) in
  let echoed := run sent (on_receive_message alice_hello) in
  handleSendMessage typing_hello 1700000000000
    = [ setMessages (fun prevMessages =>
          prevMessages ++ [tempMessage 1700000000000 "hello"]);
        emit_send_message "room-7" "hello";
        setNewMessage "" ]
  /\ with_text "hello" (messages echoed)
       = [ {| id := IdStr "temp_1700000000000"; sender := "You"; text := "hello" |};
           {| id := IdNum 42; sender := "Alice"; text := "hello" |} ].
Proof. cbv zeta. split; reflexivity. Qed.

End Chat.

(* ===================================================================== *)
(** * Properties of the outgoing invitation *)
(* ===================================================================== *)

Module Invitations.
Import App.

Lemma OutgoingInvite_eqb_refl (i : OutgoingInvite) : OutgoingInvite_eqb i i = true.
Proof.
  unfold OutgoingInvite_eqb. now rewrite Z.eqb_refl, String.eqb_refl.
Qed.

Lemma same_deps_refl (s : State) : same_deps s s = true.
Proof.
  unfold same_deps. rewrite Z.eqb_refl.
  destruct (outgoingInvite s); simpl; [|reflexivity].
  now rewrite OutgoingInvite_eqb_refl.
Qed.

Lemma requests_app (xs ys : list Cmd) :
  requests (xs ++ ys) = requests xs ++ requests ys.
Proof.
  induction xs as [|x xs IH]; [reflexivity|].
  destruct x; simpl; now rewrite ?IH.
Qed.

(** ** The guard *)

Lemma handleSendInvite_pending (s : State) (inv : OutgoingInvite) (a : Attempt) :
  outgoingInvite s = Some inv ->
  handleSendInvite s (socket_connected a) (inviteeUserId a) (inviteeName a) (settles a)
    = [setMessage already_pending].
Proof. intros H. unfold handleSendInvite. now rewrite H. Qed.

(** With no invitation out, the control goes through to the request. *)
Lemma handleSendInvite_free (s : State) (connected : bool) (u : Z)
    (n : option string) (res : PostResult) :
  outgoingInvite s = None ->
  requests (handleSendInvite s connected u n res) = [u].
Proof.
  intros H. unfold handleSendInvite. rewrite H.
  rewrite !requests_app. simpl.
  destruct (negb (isSocketRegistered s) && connected); simpl;
    destruct res as [|e]; simpl; try reflexivity;
    destruct (includes _ _); reflexivity.
Qed.



(** ** The countdown effect *)

Lemma rerender_pending (fuel : nat) (s : State) (inv : OutgoingInvite) :
  outgoingInvite s = Some inv -> 0 < outgoingInviteTimer s ->
  rerender (S fuel) s = (s, true).
Proof.
  intros Hi Ht. simpl. unfold outgoingInviteEffect. rewrite Hi.
  destruct (Z.leb_spec (outgoingInviteTimer s) 0); [lia|].
  simpl. now rewrite same_deps_refl.
Qed.

Lemma rerender_idle (fuel : nat) (s : State) :
  outgoingInvite s = None ->
  rerender (S fuel) s = (run s [setOutgoingInviteTimer 15], false).
Proof.
  intros Hi. destruct s as [m r o t sr ms nm]. simpl in Hi. subst o.
  cbn [rerender outgoingInviteEffect outgoingInvite run fold_left apply_cmd].
  destruct (same_deps _ _); [reflexivity|].
  destruct fuel; cbn; [reflexivity|].
  unfold same_deps; cbn. reflexivity.
Qed.

Lemma rerender_expired (fuel : nat) (s : State) (inv : OutgoingInvite) :
  outgoingInvite s = Some inv -> outgoingInviteTimer s <= 0 ->
  rerender (S (S fuel)) s
    = (run s [ setOutgoingInvite None; setOutgoingInviteTimer 15;
               setMessage "Invitation expired. You can send another invite now." ],
       false).
Proof.
  intros Hi Ht. destruct s as [m r o t sr ms nm]. simpl in Hi, Ht. subst o.
  cbn [rerender outgoingInviteEffect outgoingInvite outgoingInviteTimer].
  destruct (Z.leb_spec t 0); [|lia].
  cbn. reflexivity.
Qed.

(** Whatever the state, the effect has come to rest after two further
    renders: more fuel changes nothing. *)
Lemma rerender_settles (fuel : nat) (s : State) :
  rerender (2 + fuel) s = settle s.
Proof.
  unfold settle. change (2 + fuel)%nat with (S (S fuel)).
  destruct (outgoingInvite s) as [inv|] eqn:Hi.
  - destruct (Z.leb_spec (outgoingInviteTimer s) 0).
    + rewrite (rerender_expired fuel s inv), (rerender_expired 0 s inv);
        auto.
    + rewrite (rerender_pending (S fuel) s inv), (rerender_pending 1 s inv);
        auto.
  - rewrite (rerender_idle (S fuel) s), (rerender_idle 1 s); auto.
Qed.

(** At rest the effect no longer changes its dependencies. *)
Lemma settle_at_rest (s : State) :
  same_deps (fst (settle s)) (run (fst (settle s))
                                (fst (outgoingInviteEffect (fst (settle s)))))
    = true.
Proof.
  unfold settle. destruct (outgoingInvite s) as [inv|] eqn:Hi.
  - destruct (Z.leb_spec (outgoingInviteTimer s) 0).
    + rewrite (rerender_expired _ s inv) by assumption. reflexivity.
    + rewrite (rerender_pending _ s inv) by assumption. simpl.
      unfold outgoingInviteEffect. rewrite Hi.
      destruct (Z.leb_spec (outgoingInviteTimer s) 0); [lia|].
      simpl. apply same_deps_refl.
  - rewrite rerender_idle by assumption. simpl.
    unfold outgoingInviteEffect, same_deps. simpl. rewrite Hi. reflexivity.
Qed.

(** ** One second at a time *)

Lemma seconds_pass_last (n : nat) (k : State * bool) :
  seconds_pass (S n) k = second_passes (seconds_pass n k).
Proof.
  revert k. induction n as [|n IH]; intros k; [reflexivity|].
  change (seconds_pass (S (S n)) k) with (seconds_pass (S n) (second_passes k)).
  now rewrite IH.
Qed.

(** With more than a second left the timeout only counts down and is
    armed again. *)
Lemma second_passes_counts (s : State) (inv : OutgoingInvite) :
  outgoingInvite s = Some inv -> 1 < outgoingInviteTimer s ->
  second_passes (s, true) = (run s [tickOutgoingInviteTimer], true).
Proof.
  intros Hi Ht. unfold second_passes, settle.
  apply rerender_pending with inv; simpl; [assumption|lia].
Qed.

(** The timeout that brings the countdown to zero makes the effect clear
    the invitation in the same second. *)
Lemma second_passes_expires (s : State) (inv : OutgoingInvite) :
  outgoingInvite s = Some inv -> outgoingInviteTimer s <= 1 ->
  second_passes (s, true)
    = (run s [ tickOutgoingInviteTimer; setOutgoingInvite None;
               setOutgoingInviteTimer 15;
               setMessage "Invitation expired. You can send another invite now." ],
       false).
Proof.
  intros Hi Ht. unfold second_passes, settle.
  rewrite (rerender_expired 0 _ inv); simpl; [reflexivity|assumption|lia].
Qed.

(** With nothing armed, time passing changes nothing. *)
Lemma seconds_pass_unarmed (n : nat) (s : State) :
  seconds_pass n (s, false) = (s, false).
Proof. induction n as [|n IH]; [reflexivity|exact IH]. Qed.

(** While more than [n] seconds are left, [n] seconds only lower the
    countdown by [n]. *)
Lemma seconds_pass_counts (n : nat) (s : State) (inv : OutgoingInvite) :
  outgoingInvite s = Some inv -> Z.of_nat n < outgoingInviteTimer s ->
  seconds_pass n (s, true)
    = (run s [setOutgoingInviteTimer (outgoingInviteTimer s - Z.of_nat n)], true).
Proof.
  induction n as [|n IH]; intros Hi Ht.
  - destruct s; simpl. now rewrite Z.sub_0_r.
  - rewrite seconds_pass_last, IH by (auto; lia).
    rewrite (second_passes_counts _ inv); [|exact Hi|simpl; lia].
    destruct s; simpl. do 2 f_equal. lia.
Qed.

(** What a successful send leaves in the invitation cells. *)
Lemma handleSendInvite_resolved (c : State) (connected : bool) (u : Z)
    (n : option string) :
  outgoingInvite c = None ->
  let sent := run c (handleSendInvite c connected u n Resolved) in
  outgoingInvite sent
    = Some {| invitee_user_id := u;
              invitee_name := if truthy n
                              then match n with Some x => x | None => "" end
                              else ("User " ++ show u)%string |}
  /\ outgoingInviteTimer sent = 15.
Proof.
  intros H. unfold handleSendInvite. rewrite H.
  destruct (negb (isSocketRegistered c) && connected); simpl; auto.
Qed.

(** C8. An invitation is sent and nobody answers.  The render that stores
    it arms the one-second timeout; for each of the next 14 seconds the
    invitation is still out, the countdown shows what is left of the 15
    seconds and the invite control stays blocked; the fifteenth second
    clears the invitation, puts the countdown back to 15, arms nothing
    further, and the invite control goes through to the request again. *)
Theorem outgoing_invite_expires_after_15_seconds
    (c : State) (connected : bool) (u : Z) (name : option string) :
  outgoingInvite c = None ->
  let sent := run c (handleSendInvite c connected u name Resolved) in
  let start := settle sent in
  start = (sent, true)
  /\ (forall n : nat, (n < 15)%nat ->
        outgoingInvite (fst (seconds_pass n start)) = outgoingInvite sent
        /\ outgoingInvite (fst (seconds_pass n start)) <> None
        /\ outgoingInviteTimer (fst (seconds_pass n start)) = 15 - Z.of_nat n
        /\ snd (seconds_pass n start) = true
        /\ forall a : Attempt,
             handleSendInvite (fst (seconds_pass n start)) (socket_connected a)
               (inviteeUserId a) (inviteeName a) (settles a)
               = [setMessage already_pending])
  /\ outgoingInvite (fst (seconds_pass 15 start)) = None
  /\ outgoingInviteTimer (fst (seconds_pass 15 start)) = 15
  /\ snd (seconds_pass 15 start) = false
  /\ forall a : Attempt,
       requests (handleSendInvite (fst (seconds_pass 15 start)) (socket_connected a)
                   (inviteeUserId a) (inviteeName a) (settles a))
         = [inviteeUserId a].
Proof.
  intros Hc. cbv zeta.
  destruct (handleSendInvite_resolved c connected u name Hc) as [Hi Ht].
  set (sent := run c (handleSendInvite c connected u name Resolved)) in *.
  set (inv := {| invitee_user_id := u;
                 invitee_name := if truthy name
                                 then match name with Some x => x | None => "" end
                                 else ("User " ++ show u)%string |}) in *.
  assert (Hs : settle sent = (sent, true)).
  { unfold settle. apply rerender_pending with inv; [exact Hi|lia]. }
  rewrite Hs. split; [reflexivity|].
  assert (Hn : forall n : nat, (n < 15)%nat ->
            seconds_pass n (sent, true)
              = (run sent [setOutgoingInviteTimer (15 - Z.of_nat n)], true)).
  { intros n Hlt. rewrite (seconds_pass_counts n sent inv), Ht; [reflexivity|exact Hi|lia]. }
  split.
  - intros n Hlt. rewrite (Hn n Hlt). cbn [fst snd].
    split; [reflexivity|].
    split; [change (outgoingInvite sent <> None); rewrite Hi; discriminate|].
    split; [reflexivity|]. split; [reflexivity|].
    intros a. apply handleSendInvite_pending with inv. exact Hi.
  - rewrite seconds_pass_last, (Hn 14%nat) by lia.
    rewrite (second_passes_expires _ inv); [|exact Hi|simpl; lia].
    cbn [fst snd]. repeat split.
    intros a. now apply handleSendInvite_free.
Qed.

(** From the idle dashboard: invite user 9, wait 15 seconds, invite again. *)
Lemma outgoing_invite_expires_after_15_seconds_witness :
  let sent := run idle (handleSendInvite idle true 9 (Some "Bob") Resolved) in
  outgoingInvite (fst (seconds_pass 15 (settle sent))) = None
  /\ outgoingInviteTimer (fst (seconds_pass 15 (settle sent))) = 15.
Proof.
  cbv zeta.
  pose proof (outgoing_invite_expires_after_15_seconds idle true 9 (Some "Bob") eq_refl)
    as (_ & _ & H1 & H2 & _).
  split; [exact H1|exact H2].
Defined.

(** C9. After [invite_declined] the outgoing-invite cell is empty and its
    countdown is back at 15, whatever they were before; the countdown
    effect leaves that state alone and arms nothing; and the next use of
    the invite control goes through to the request instead of being
    answered with the already-pending message. *)
Theorem invite_declined_frees_inviter (c : State) (a : Attempt) :
  let s := run c on_invite_declined in
  outgoingInvite s = None
  /\ outgoingInviteTimer s = 15
  /\ message s = "Your invitation was declined. You can send another invite now."
  /\ settle s = (s, false)
  /\ requests (handleSendInvite s (socket_connected a) (inviteeUserId a)
                 (inviteeName a) (settles a))
       = [inviteeUserId a]
  /\ handleSendInvite s (socket_connected a) (inviteeUserId a)
       (inviteeName a) (settles a)
       <> [setMessage already_pending].
Proof.
  cbv zeta.
  split; [reflexivity|]. split; [reflexivity|]. split; [reflexivity|].
  split; [|split].
  - unfold settle. rewrite rerender_idle by reflexivity. reflexivity.
  - now apply handleSendInvite_free.
  - intros E.
    pose proof (handleSendInvite_free (run c on_invite_declined)
                  (socket_connected a) (inviteeUserId a) (inviteeName a) (settles a)
                  eq_refl) as R.
    rewrite E in R. discriminate R.
Qed.

End Invitations.

(* ===================================================================== *)
(** * Further properties of the timer *)
(* ===================================================================== *)

Module TimerPanelProps.
Import PomodoroTimer TimerPanel.

(** ** The clock face *)

(** Below one hundred, a padded number is its two decimal digits. *)
Lemma padStart2_two_digits (n : nat) :
  (n < 100)%nat ->
  padStart2 (show (Z.of_nat n))
    = String (ascii_of_nat (48 + n / 10))
        (String (ascii_of_nat (48 + n mod 10)) EmptyString).
Proof.
  intros H.
  do 100 (destruct n as [|n]; [reflexivity|]).
  lia.
Qed.

Lemma digit_inj (a b : nat) :
  (a < 10)%nat -> (b < 10)%nat ->
  ascii_of_nat (48 + a) = ascii_of_nat (48 + b) -> a = b.
Proof.
  intros Ha Hb E.
  apply (f_equal nat_of_ascii) in E.
  rewrite !nat_ascii_embedding in E by lia. lia.
Qed.

Lemma formatTime_digits (t : Z) :
  0 <= t < 6000 ->
  let m := Z.to_nat (t / 60) in
  let s := Z.to_nat (Z.rem t 60) in
  formatTime t
    = String (ascii_of_nat (48 + m / 10))
        (String (ascii_of_nat (48 + m mod 10))
           (String ":"
              (String (ascii_of_nat (48 + s / 10))
                 (String (ascii_of_nat (48 + s mod 10)) EmptyString)))).
Proof.
  intros Ht. cbv zeta. unfold formatTime.
  assert (Hm : 0 <= t / 60 < 100).
  { split; [apply Z.div_pos; lia|apply Z.div_lt_upper_bound; lia]. }
  assert (Hs : 0 <= Z.rem t 60 < 60).
  { rewrite Z.rem_mod_nonneg by lia. apply Z.mod_pos_bound. lia. }
  rewrite <- (Z2Nat.id (t / 60)) at 1 by lia.
  rewrite <- (Z2Nat.id (Z.rem t 60)) at 1 by lia.
  rewrite !padStart2_two_digits by lia.
  reflexivity.
Qed.

(** X1. For every time from 0 up to 99:59 the clock face is five
    characters wide with the colon in the middle, and two different times
    never show the same text. *)
Theorem formatTime_width_and_injective (t u : Z) :
  0 <= t < 6000 -> 0 <= u < 6000 ->
  String.length (formatTime t) = 5%nat
  /\ String.get 2 (formatTime t) = Some ":"%char
  /\ (formatTime t = formatTime u -> t = u).
Proof.
  intros Ht Hu.
  rewrite (formatTime_digits t Ht), (formatTime_digits u Hu). cbv zeta.
  split; [reflexivity|]. split; [reflexivity|].
  assert (B : forall x, 0 <= x < 6000 ->
            (Z.to_nat (x / 60) < 100)%nat /\ (Z.to_nat (Z.rem x 60) < 60)%nat
            /\ x = 60 * Z.of_nat (Z.to_nat (x / 60)) + Z.of_nat (Z.to_nat (Z.rem x 60))).
  { intros x Hx.
    assert (0 <= x / 60 < 100)
      by (split; [apply Z.div_pos; lia|apply Z.div_lt_upper_bound; lia]).
    assert (0 <= Z.rem x 60 < 60)
      by (rewrite Z.rem_mod_nonneg by lia; apply Z.mod_pos_bound; lia).
    repeat split; try lia.
    rewrite !Z2Nat.id by lia. rewrite Z.rem_mod_nonneg by lia.
    apply Z.div_mod. lia. }
  destruct (B t Ht) as (Hm1 & Hs1 & Et). destruct (B u Hu) as (Hm2 & Hs2 & Eu).
  set (m1 := Z.to_nat (t / 60)) in *. set (s1 := Z.to_nat (Z.rem t 60)) in *.
  set (m2 := Z.to_nat (u / 60)) in *. set (s2 := Z.to_nat (Z.rem u 60)) in *.
  intros E. injection E as E1 E2 E3 E4.
  assert (D : forall a b : nat, (a < 100)%nat -> (b < 100)%nat ->
            ascii_of_nat (48 + a / 10) = ascii_of_nat (48 + b / 10) ->
            ascii_of_nat (48 + a mod 10) = ascii_of_nat (48 + b mod 10) -> a = b).
  { intros a b Ha Hb Q R.
    apply digit_inj in Q;
      [|apply Nat.Div0.div_lt_upper_bound; lia|apply Nat.Div0.div_lt_upper_bound; lia].
    apply digit_inj in R; [|apply Nat.mod_upper_bound; lia|apply Nat.mod_upper_bound; lia].
    rewrite (Nat.div_mod_eq a 10), (Nat.div_mod_eq b 10). lia. }
  assert (m1 = m2) by (apply D; auto).
  assert (s1 = s2) by (apply D; auto; lia).
  lia.
Qed.

(** 24:59 and 25:00 are told apart. *)
Lemma formatTime_width_and_injective_witness :
  String.length (formatTime 1499) = 5%nat
  /\ (formatTime 1499 = formatTime 1500 -> 1499 = 1500).
Proof.
  pose proof (formatTime_width_and_injective 1499 1500 ltac:(lia) ltac:(lia))
    as (H1 & _ & H3).
  split; [exact H1|exact H3].
Defined.

(** ** The listener *)

(** X2. Whatever the payload, the [timer_update] listener sends nothing
    back on the socket and leaves the pomodoro count, the completed flag,
    the auto-start switch, the preset selection and the custom durations
    of the client as they are. *)
Theorem timer_update_is_silent (c s : State) (data : TimerUpdate) :
  emitted (handleTimerUpdate c data) = []
  /\ let s' := run s (handleTimerUpdate c data) in
     pomodoroCount s' = pomodoroCount s
     /\ hasCompletedPomodoro s' = hasCompletedPomodoro s
     /\ autoStartBreaks s' = autoStartBreaks s
     /\ selectedPreset s' = selectedPreset s
     /\ customDurations s' = customDurations s.
Proof.
  unfold handleTimerUpdate.
  destruct data as [a t m]; simpl.
  repeat match goal with
         | |- context [String.eqb a ?x] => destruct (String.eqb a x)
         end;
    destruct t as [t|], m as [m|]; simpl;
    try destruct (Mode_eqb m (mode c)); simpl; repeat split; reflexivity.
Qed.

(** X3. The start/pause control sets nothing locally.  Used on a paused
    timer that has time left, it emits [start] with that time, and a client
    that receives it runs from exactly that time but keeps its own mode;
    used on a running timer it emits [pause], and a client that receives it
    stops but keeps its own remaining time, whatever time was carried. *)
Theorem start_pause_relay (p : Props) (sender receiver : State) :
  run sender (handleStartPause p sender) = sender
  /\ (isRunning sender = false -> timeRemaining sender <> 0 ->
        emitted (handleStartPause p sender)
          = [timer_action (sessionRoom p) "start" (timeRemaining sender) (mode sender)]
        /\ let s' := run receiver
                       (handleTimerUpdate receiver
                          {| data_action := "start";
                             data_time := Some (timeRemaining sender);
                             data_mode := Some (mode sender) |}) in
           timeRemaining s' = timeRemaining sender
           /\ isRunning s' = true /\ mode s' = mode receiver)
  /\ (isRunning sender = true ->
        emitted (handleStartPause p sender)
          = [timer_action (sessionRoom p) "pause" (timeRemaining sender) (mode sender)]
        /\ let s' := run receiver
                       (handleTimerUpdate receiver
                          {| data_action := "pause";
                             data_time := Some (timeRemaining sender);
                             data_mode := Some (mode sender) |}) in
           timeRemaining s' = timeRemaining receiver
           /\ isRunning s' = false /\ mode s' = mode receiver).
Proof.
  split; [|split].
  - unfold handleStartPause. destruct (isRunning sender), sender; reflexivity.
  - intros Hr Ht. unfold handleStartPause. rewrite Hr. split; [reflexivity|].
    simpl. destruct (Z.eqb_spec (timeRemaining sender) 0); [contradiction|auto].
  - intros Hr. unfold handleStartPause. rewrite Hr. split; [reflexivity|].
    simpl. auto.
Qed.

(** A paused client with 420 seconds left presses start; the peer, in its
    short break with 17 seconds left, runs on from 420 in that break. *)
Lemma start_pause_relay_witness :
  let s' := run (run initial [setMode short; setTimeRemaining 17])
              (handleTimerUpdate (run initial [setMode short; setTimeRemaining 17])
                 {| data_action := "start"; data_time := Some 420;
                    data_mode := Some pomodoro |}) in
  timeRemaining s' = 420 /\ isRunning s' = true /\ mode s' = short.
Proof.
  cbv zeta.
  pose proof (proj1 (proj2 (start_pause_relay
                              {| sessionRoom := "room-7"; onPomodoroComplete := false |}
                              (run initial [setTimeRemaining 420])
                              (run initial [setMode short; setTimeRemaining 17])))
                eq_refl ltac:(discriminate)) as (_ & H).
  exact H.
Defined.

(** ** Changing the mode *)

Lemma run_settings_timer (s : State) (cs : list Cmd) :
  run_settings s (map timer cs) = run s cs.
Proof.
  revert s. induction cs as [|c cs IH]; intros s; [reflexivity|].
  simpl. apply IH.
Qed.

Lemma emitted_settings_timer (cs : list Cmd) :
  emitted_settings (map timer cs) = emitted cs.
Proof.
  induction cs as [|c cs IH]; [reflexivity|].
  destruct c; simpl; now rewrite ?IH.
Qed.

Lemma handleSetMode_run (p : Props) (c s : State) (m : Mode) (silent : bool) :
  let s' := run s (handleSetMode p c m silent) in
  mode s' = m /\ timeRemaining s' = durationOf c m /\ isRunning s' = isRunning s
  /\ pomodoroCount s' = pomodoroCount s
  /\ selectedPreset s' = selectedPreset s /\ customDurations s' = customDurations s.
Proof.
  unfold handleSetMode, sendTimerAction.
  destruct m, silent; simpl; repeat split; reflexivity.
Qed.

(** X4. The mode buttons.  The sender ends in the new mode at its full
    duration for that mode and emits one [set_mode] carrying both.  A
    client that receives it ends paused in that mode; after the render that
    follows, its remaining time is the carried one when it was already in
    that mode, and its own duration for the mode when the mode is new to
    it. *)
Theorem set_mode_relay (p : Props) (sender receiver : State) (m : Mode) :
  let sent := PomodoroTimer.commit sender (handleSetMode p sender m false) in
  let got := PomodoroTimer.commit receiver
               (handleTimerUpdate receiver
                  {| data_action := "set_mode";
                     data_time := Some (durationOf sender m);
                     data_mode := Some m |}) in
  emitted (handleSetMode p sender m false)
    = [timer_action (sessionRoom p) "set_mode" (durationOf sender m) m]
  /\ mode sent = m /\ timeRemaining sent = durationOf sender m
  /\ isRunning sent = isRunning sender
  /\ mode got = m /\ isRunning got = false
  /\ timeRemaining got
       = if Mode_eqb m (mode receiver) then durationOf sender m
         else durationOf receiver m.
Proof.
  cbv zeta.
  pose proof (handleSetMode_run p sender sender m false) as (Hm & Ht & Hr & _).
  cbv zeta in Hm, Ht, Hr.
  split.
  { unfold handleSetMode. rewrite !TimerSync.emitted_app, TimerSync.sendTimerAction_explicit.
    now destruct (Mode_eqb m pomodoro). }
  rewrite !TimerSync.commit_mode, !TimerSync.commit_time, Hm, Ht.
  split; [reflexivity|]. split; [now destruct (Mode_eqb m (mode sender))|].
  split.
  { unfold PomodoroTimer.commit. rewrite Hm.
    destruct (Mode_eqb m (mode sender)); [exact Hr|].
    unfold initDurationEffect. simpl. exact Hr. }
  assert (G : mode (run receiver
                 (handleTimerUpdate receiver
                    {| data_action := "set_mode";
                       data_time := Some (durationOf sender m);
                       data_mode := Some m |})) = m) by reflexivity.
  rewrite G. split; [reflexivity|]. split; [|reflexivity].
  unfold PomodoroTimer.commit. rewrite G.
  destruct (Mode_eqb m (mode receiver)); reflexivity.
Qed.

(** ** Completion *)

(** X5. Auto-start.  The callback that the completion branch schedules
    still sees the render in which the timer was running at zero: with
    auto-start on, its start/pause step emits a single [pause] carrying
    time 0 and the mode that just completed, it emits no [start], and the
    client is left not running. *)
Theorem auto_start_emits_pause (p : Props) (c : State) :
  isRunning c = true -> timeRemaining c = 0 -> autoStartBreaks c = true ->
  let r := countdownEffect p c in
  emitted (after2s r) = [timer_action (sessionRoom p) "pause" 0 (mode c)]
  /\ isRunning (run (run c (now r)) (after2s r)) = false.
Proof.
  intros Hr Ht Ha. cbv zeta.
  unfold countdownEffect. rewrite Hr, Ht. simpl.
  unfold timerCompletion. rewrite Ha.
  assert (E : forall m, emitted (handleSetMode p c m true ++ handleStartPause p c)
                = [timer_action (sessionRoom p) "pause" 0 (mode c)]).
  { intros m. rewrite TimerSync.emitted_app. unfold handleStartPause, handleSetMode.
    rewrite Hr. unfold sendTimerAction. rewrite Ht.
    now destruct (Mode_eqb m pomodoro). }
  assert (R : forall (s : State) (m : Mode),
            isRunning (run s (handleSetMode p c m true ++ handleStartPause p c))
              = isRunning s).
  { intros s m. rewrite TimerSync.run_app, TimerSync.handleStartPause_run.
    now destruct (handleSetMode_run p c s m true) as (_ & _ & H & _). }
  destruct (Mode_eqb (mode c) pomodoro); cbn [after2s now].
  - destruct (Z.rem (pomodoroCount c + 1) 4 =? 0); (split; [apply E|]);
      rewrite R; now destruct (onPomodoroComplete p).
  - split; [apply E|]. rewrite R. reflexivity.
Qed.

(** The first pomodoro of the day runs out. *)
Lemma auto_start_emits_pause_witness :
  emitted (after2s (countdownEffect
                      {| sessionRoom := "room-7"; onPomodoroComplete := true |}
                      (run initial [setTimeRemaining 0; setIsRunning true])))
    = [timer_action "room-7" "pause" 0 pomodoro].
Proof.
  exact (proj1 (auto_start_emits_pause
                  {| sessionRoom := "room-7"; onPomodoroComplete := true |}
                  (run initial [setTimeRemaining 0; setIsRunning true])
                  eq_refl eq_refl eq_refl)).
Defined.

(** X6. A break that runs out with auto-start on counts nothing and
    reports nothing on the socket at completion; two seconds later the
    client is back in pomodoro mode at its full pomodoro duration with the
    completed flag cleared. *)
Theorem break_completion_returns_to_focus (p : Props) (c : State) :
  isRunning c = true -> timeRemaining c = 0 -> mode c <> pomodoro ->
  autoStartBreaks c = true ->
  let r := countdownEffect p c in
  let s := run (run c (now r)) (after2s r) in
  emitted (now r) = []
  /\ pomodoroCount s = pomodoroCount c
  /\ mode s = pomodoro
  /\ timeRemaining s = durationOf c pomodoro
  /\ hasCompletedPomodoro s = false.
Proof.
  intros Hr Ht Hm Ha. cbv zeta.
  unfold countdownEffect. rewrite Hr, Ht. simpl.
  unfold timerCompletion. rewrite Ha.
  destruct (TimerSync.Mode_eqb_spec (mode c) pomodoro) as [E|_]; [contradiction|].
  cbn [now after2s].
  rewrite TimerSync.run_app, TimerSync.handleStartPause_run.
  split; [reflexivity|].
  destruct (handleSetMode_run p c
              (run c ([setIsRunning false; playNotificationSound]
                        ++ [showNotification BreakComplete])) pomodoro true)
    as (H1 & H2 & _ & H4 & _).
  cbv zeta in H1, H2, H4.
  repeat split; auto.
Qed.

(** The short break after the first pomodoro runs out. *)
Lemma break_completion_returns_to_focus_witness :
  let p := {| sessionRoom := "room-7"; onPomodoroComplete := true |} in
  let c := run initial [setMode short; setTimeRemaining 0; setIsRunning true;
                        setPomodoroCount 1] in
  let r := countdownEffect p c in
  mode (run (run c (now r)) (after2s r)) = pomodoro
  /\ timeRemaining (run (run c (now r)) (after2s r)) = 1500.
Proof.
  cbv zeta.
  pose proof (break_completion_returns_to_focus
                {| sessionRoom := "room-7"; onPomodoroComplete := true |}
                (run initial [setMode short; setTimeRemaining 0; setIsRunning true;
                              setPomodoroCount 1])
                eq_refl eq_refl ltac:(discriminate) eq_refl) as (_ & _ & H3 & H4 & _).
  split; [exact H3|exact H4].
Defined.

(** ** The passing of seconds *)





(** ** Presets and custom durations *)

Lemma get_set_same {A : Type} (o : PerMode A) (m : Mode) (v : A) :
  get (set o m v) m = v.
Proof. now destruct m. Qed.

Lemma get_set_other {A : Type} (o : PerMode A) (m m' : Mode) (v : A) :
  m' <> m -> get (set o m v) m' = get o m'.
Proof. destruct m, m'; simpl; congruence. Qed.

(** X8. Choosing the preset at index [i] for the current mode: the
    selection of the current mode becomes [i] and the other selections stay;
    the running flag is not touched; after the render that follows nothing
    of the current duration has elapsed; and a [set_mode] carrying the
    preset's time is emitted exactly when that preset exists and has a
    time. *)
Theorem preset_change_restarts_clock (p : Props) (c : State) (i : nat) :
  let s := commit_settings c (handlePresetChange p c i) in
  get (selectedPreset s) (mode c) = i
  /\ (forall m, m <> mode c -> get (selectedPreset s) m = get (selectedPreset c) m)
  /\ mode s = mode c /\ isRunning s = isRunning c
  /\ elapsed s = 0
  /\ emitted_settings (handlePresetChange p c i)
       = match nth_error (TIMER_PRESETS (mode c)) i with
         | Some {| preset_time := Some t |} =>
             [timer_action (sessionRoom p) "set_mode" t (mode c)]
         | _ => []
         end.
Proof.
  cbv zeta. unfold commit_settings, handlePresetChange.
  cbn [app existsb replaces_settings orb].
  unfold elapsed, getCurrentDuration, initDurationEffect.
  destruct (nth_error (TIMER_PRESETS (mode c)) i) as [[nm [t|]]|]; simpl;
    (split; [apply get_set_same|]);
    (split; [intros m Hm; now apply get_set_other|]);
    repeat split; try reflexivity;
    unfold getCurrentDuration, durationOf; simpl; lia.
Qed.

(** A client in its short break picks the preset after the last one: the
    clock goes to the custom duration and nothing is sent. *)
Lemma preset_change_restarts_clock_witness :
  let c := run initial [setMode short; setTimeRemaining 120] in
  let p := {| sessionRoom := "room-7"; onPomodoroComplete := false |} in
  timeRemaining (commit_settings c (handlePresetChange p c 3)) = 300
  /\ emitted_settings (handlePresetChange p c 3) = [].
Proof.
  cbv zeta.
  pose proof (preset_change_restarts_clock
                {| sessionRoom := "room-7"; onPomodoroComplete := false |}
                (run initial [setMode short; setTimeRemaining 120]) 3)
    as (_ & _ & _ & _ & H5 & H6).
  split; [|exact H6].
  cbv zeta in H5. unfold elapsed in H5.
  change (getCurrentDuration
            (commit_settings (run initial [setMode short; setTimeRemaining 120])
               (handlePresetChange
                  {| sessionRoom := "room-7"; onPomodoroComplete := false |}
                  (run initial [setMode short; setTimeRemaining 120]) 3)))
    with 300 in H5.
  lia.
Defined.

(** X9. Entering a custom duration [d]: the peer is sent [set_mode] with
    [d] and [d] is stored as the custom duration of the current mode; but
    after the render that follows the client's own clock shows the time of
    the selected preset whenever that preset has one, and shows [d] only
    when the selected preset has no time of its own or does not exist. *)
Theorem custom_duration_sent_but_preset_kept (p : Props) (c : State) (d : Z) :
  let s := commit_settings c (handleCustomDurationChange p c d) in
  emitted_settings (handleCustomDurationChange p c d)
    = [timer_action (sessionRoom p) "set_mode" d (mode c)]
  /\ get (customDurations s) (mode c) = d
  /\ selectedPreset s = selectedPreset c
  /\ timeRemaining s
       = match nth_error (TIMER_PRESETS (mode c)) (get (selectedPreset c) (mode c)) with
         | Some {| preset_time := Some t |} => t
         | _ => d
         end.
Proof.
  cbv zeta. unfold commit_settings, handleCustomDurationChange.
  cbn [app existsb replaces_settings orb].
  unfold initDurationEffect, getCurrentDuration, durationOf. simpl.
  split; [reflexivity|]. split; [apply get_set_same|]. split; [reflexivity|].
  rewrite get_set_same.
  destruct (nth_error _ _) as [[nm [t|]]|]; reflexivity.
Qed.

End TimerPanelProps.

(* ===================================================================== *)
(** * Further properties of the chat list and of sending an invitation *)
(* ===================================================================== *)

Module AppProps.
Import App.

(** ** What [trim] leaves *)

Lemma trimStart_blank (s : string) :
  forallb is_whitespace (list_ascii_of_string s) = true <-> trimStart s = EmptyString.
Proof.
  induction s as [|c r IH]; simpl; [tauto|].
  destruct (is_whitespace c); simpl; [exact IH|].
  split; discriminate.
Qed.

Lemma trimEnd_blank (s : string) :
  trimEnd s = EmptyString -> forallb is_whitespace (list_ascii_of_string s) = true.
Proof.
  induction s as [|c r IH]; simpl; [reflexivity|].
  destruct (trimEnd r) as [|c' r'].
  - destruct (is_whitespace c); [intros _; now apply IH|discriminate].
  - discriminate.
Qed.

Lemma trim_blank_iff (s : string) :
  trim s = EmptyString <-> forallb is_whitespace (list_ascii_of_string s) = true.
Proof.
  unfold trim. split.
  - intros H. apply trimStart_blank.
    pose proof (Runtime.trimStart_no_leading_space s) as L.
    apply trimEnd_blank in H.
    destruct (trimStart s) as [|c r]; [reflexivity|].
    simpl in H. rewrite L in H. discriminate.
  - intros H. apply trimStart_blank in H. now rewrite H.
Qed.

Lemma trimEnd_head (s : string) :
  match trimEnd s with
  | String c _ => exists r, s = String c r
  | EmptyString => True
  end.
Proof.
  destruct s as [|c r]; simpl; [exact I|].
  destruct (trimEnd r); [destruct (is_whitespace c)|]; simpl; eauto.
Qed.

Lemma trimEnd_last (s : string) :
  match rev (list_ascii_of_string (trimEnd s)) with
  | c :: _ => is_whitespace c = false
  | [] => True
  end.
Proof.
  induction s as [|c r IH]; simpl; [exact I|].
  destruct (trimEnd r) as [|c' r'] eqn:E.
  - destruct (is_whitespace c) eqn:W; simpl; [exact I|exact W].
  - change (list_ascii_of_string (String c (String c' r')))
      with (c :: list_ascii_of_string (String c' r')).
    cbn [rev]. destruct (rev (list_ascii_of_string (String c' r'))) as [|x xs] eqn:R.
    + apply (f_equal (@List.length ascii)) in R.
      rewrite length_rev in R. discriminate R.
    + exact IH.
Qed.

(** The trimmed text begins and ends with a character that is not white
    space, when it has any character at all. *)
Lemma trim_ends (s : string) :
  match list_ascii_of_string (trim s) with
  | c :: _ => is_whitespace c = false
  | [] => True
  end
  /\ match rev (list_ascii_of_string (trim s)) with
     | c :: _ => is_whitespace c = false
     | [] => True
     end.
Proof.
  unfold trim. split; [|apply trimEnd_last].
  pose proof (trimEnd_head (trimStart s)) as H.
  pose proof (Runtime.trimStart_no_leading_space s) as L.
  destruct (trimEnd (trimStart s)) as [|c r]; [exact I|].
  destruct H as [r' H]. rewrite H in L. exact L.
Qed.

(** ** Sending a chat message *)

(** X10. The send handler does nothing at all (no optimistic copy, no
    emit, the input box left as typed) exactly when the typed text consists
    of white space only or the client is in no session room. *)
Theorem blank_message_not_sent (c : State) (now : Z) :
  handleSendMessage c now = []
  <-> forallb is_whitespace (list_ascii_of_string (newMessage c)) = true
      \/ truthy (sessionRoom c) = false.
Proof.
  unfold handleSendMessage. rewrite <- trim_blank_iff.
  destruct (String.eqb_spec (trim (newMessage c)) ""), (truthy (sessionRoom c));
    simpl; split; intros; try reflexivity; try discriminate; auto.
  destruct H; [contradiction|discriminate].
Qed.

(** Three spaces in room 7: nothing happens. *)
Lemma blank_message_not_sent_witness :
  handleSendMessage
    {| message := ""; isSocketRegistered := true; outgoingInvite := None;
       outgoingInviteTimer := 15; sessionRoom := Some "room-7";
       messages := []; newMessage := "   " |} 5 = [].
Proof.
  apply (proj2 (blank_message_not_sent
                  {| message := ""; isSocketRegistered := true; outgoingInvite := None;
                     outgoingInviteTimer := 15; sessionRoom := Some "room-7";
                     messages := []; newMessage := "   " |} 5)).
  left. reflexivity.
Defined.

(** X11. When the send handler does send, it emits exactly one
    [send_message], to the current room, whose text is the typed text
    trimmed; that text neither begins nor ends with white space; the same
    text is put in the one optimistic copy appended to the list; and the
    input box is cleared. *)
Theorem sent_message_is_trimmed (c : State) (now : Z) (room : string) :
  sessionRoom c = Some room -> room <> "" -> trim (newMessage c) <> "" ->
  let t := trim (newMessage c) in
  let s := run c (handleSendMessage c now) in
  (exists f, handleSendMessage c now
               = [setMessages f; emit_send_message room t; setNewMessage ""])
  /\ messages s = messages c ++ [{| id := IdStr ("temp_" ++ show now)%string;
                                   sender := "You"; text := t |}]
  /\ newMessage s = ""
  /\ (exists a rest, list_ascii_of_string t = a :: rest /\ is_whitespace a = false)
  /\ (exists z rest, rev (list_ascii_of_string t) = z :: rest /\ is_whitespace z = false).
Proof.
  intros Hr Hne Ht. cbv zeta. unfold handleSendMessage. rewrite Hr.
  destruct (String.eqb_spec (trim (newMessage c)) ""); [contradiction|].
  simpl. destruct (String.eqb_spec room ""); [contradiction|]. simpl.
  split; [eexists; reflexivity|]. split; [reflexivity|]. split; [reflexivity|].
  destruct (trim_ends (newMessage c)) as [H1 H2].
  assert (N : list_ascii_of_string (trim (newMessage c)) <> []).
  { intros E. apply Ht. rewrite <- (string_of_list_ascii_of_string (trim (newMessage c))).
    now rewrite E. }
  split.
  - destruct (list_ascii_of_string (trim (newMessage c))) as [|a rest];
      [contradiction|eauto].
  - destruct (rev (list_ascii_of_string (trim (newMessage c)))) as [|z rest] eqn:R;
      [|eauto].
    apply (f_equal (@List.length ascii)) in R. rewrite length_rev in R.
    destruct (list_ascii_of_string (trim (newMessage c))); [contradiction|discriminate].
Qed.

(** Alice's " hello " goes out as "hello". *)
Lemma sent_message_is_trimmed_witness :
  messages (run typing_hello (handleSendMessage typing_hello 1700000000000))
    = [{| id := IdStr "temp_1700000000000"; sender := "You"; text := "hello" |}]
  /\ newMessage (run typing_hello (handleSendMessage typing_hello 1700000000000)) = "".
Proof.
  pose proof (sent_message_is_trimmed typing_hello 1700000000000 "room-7"
                eq_refl ltac:(discriminate) ltac:(discriminate))
    as (_ & H2 & H3 & _).
  split; [exact H2|exact H3].
Defined.

(** ** Receiving chat messages *)

Lemma addMessage_NoDup (m : ChatMessage) (ms : list ChatMessage) :
  NoDup (map id ms) -> NoDup (map id (addMessage m ms)).
Proof.
  intros H. unfold addMessage.
  destruct (existsb _ ms) eqn:E; [exact H|].
  rewrite map_app. simpl.
  apply NoDup_app_remove_l with (l := []). simpl.
  apply Permutation.Permutation_NoDup with (l := id m :: map id ms).
  - apply Permutation.Permutation_cons_append.
  - constructor; [|exact H].
    intros Hin. apply in_map_iff in Hin. destruct Hin as (x & Hx & Hin).
    assert (K : existsb (fun msg => strict_eq (id msg) (id m)) ms = true).
    { apply Chat.known_id_spec. eauto. }
    congruence.
Qed.

Lemma addMessage_has (m : ChatMessage) (ms : list ChatMessage) :
  In (id m) (map id (addMessage m ms)).
Proof.
  unfold addMessage. destruct (existsb _ ms) eqn:E.
  - apply Chat.known_id_spec in E. destruct E as (x & Hin & Hx).
    rewrite <- Hx. now apply in_map.
  - rewrite map_app. apply in_or_app. right. now left.
Qed.

Lemma addMessage_prefix (m : ChatMessage) (ms : list ChatMessage) :
  exists tail, addMessage m ms = ms ++ tail.
Proof.
  unfold addMessage. destruct (existsb _ ms).
  - exists []. now rewrite app_nil_r.
  - eauto.
Qed.

(** X12. However many [receive_message] events arrive and in whatever
    order, with whatever repetitions: if the ids in the list were pairwise
    distinct before, they are pairwise distinct after; the messages that
    were listed keep their places at the front; and the id of every event
    delivered is in the list. *)
Theorem received_ids_stay_distinct (s : State) (events : list ChatMessage) :
  NoDup (map id (messages s)) ->
  let s' := fold_left (fun st m => run st (on_receive_message m)) events s in
  NoDup (map id (messages s'))
  /\ (exists tail, messages s' = messages s ++ tail)
  /\ (forall m, In m events -> In (id m) (map id (messages s'))).
Proof.
  revert s. induction events as [|e events IH]; intros s H; cbv zeta.
  - simpl. split; [exact H|]. split; [exists []; now rewrite app_nil_r|].
    intros m [].
  - cbn [fold_left].
    assert (H' : NoDup (map id (messages (run s (on_receive_message e)))))
      by (apply addMessage_NoDup; exact H).
    destruct (IH _ H') as (N & (tail & P) & A).
    split; [exact N|]. split.
    + destruct (addMessage_prefix e (messages s)) as [t1 T].
      exists (t1 ++ tail). rewrite P. simpl. rewrite T. now rewrite app_assoc.
    + intros m [<-|Hin]; [|now apply A].
      rewrite P. rewrite map_app. apply in_or_app. left.
      apply addMessage_has.
Qed.

(** Message 42 arrives three times and message 43 once: two entries. *)
Lemma received_ids_stay_distinct_witness :
  NoDup (map id (messages
                   (fold_left (fun st m => run st (on_receive_message m))
                      [ alice_hello;
                        {| id := IdNum 43; sender := "Bob"; text := "hi" |};
                        alice_hello ]
                      in_room))).
Proof.
  apply (received_ids_stay_distinct in_room
           [ alice_hello;
             {| id := IdNum 43; sender := "Bob"; text := "hi" |};
             alice_hello ]).
  simpl. constructor; [intros []|constructor].
Defined.

(** ** An invitation that the server turns down *)

(** X13. With no invitation out, a send whose request is rejected posts
    exactly one request, shows [Error: ] followed by the server's error text
    (or by the default text when there is none), leaves the outgoing-invite
    cell empty and its countdown as it was, and schedules the tip exactly
    when the error text contains [not online].  The very next use of the
    control goes through to a request again. *)
Theorem rejected_invite_leaves_inviter_free
    (c : State) (connected : bool) (u : Z) (n : option string)
    (error : option string) (a : Attempt) :
  outgoingInvite c = None ->
  let errorMsg := if truthy error
                  then match error with Some e => e | None => "" end
                  else "Could not send invite" in
  let cs := handleSendInvite c connected u n (Rejected error) in
  let s := run c cs in
  requests cs = [u]
  /\ message s = ("Error: " ++ errorMsg)%string
  /\ outgoingInvite s = None
  /\ outgoingInviteTimer s = outgoingInviteTimer c
  /\ ((exists tip, In (setTimeout_setMessage 2000 tip) cs)
        <-> includes errorMsg "not online" = true)
  /\ requests (handleSendInvite s (socket_connected a) (inviteeUserId a)
                 (inviteeName a) (settles a))
       = [inviteeUserId a].
Proof.
  intros H. cbv zeta.
  split; [now apply Invitations.handleSendInvite_free|].
  assert (E : handleSendInvite c connected u n (Rejected error)
              = match outgoingInvite c with
                | Some _ => [setMessage already_pending]
                | None => _
                end) by reflexivity.
  rewrite H in E. rewrite !E. clear E. cbv zeta.
  set (errorMsg := if truthy error
                   then match error with Some e => e | None => "" end
                   else "Could not send invite").
  assert (S : forall pre tip_part,
            (pre = [] \/ pre = [registerSocketWithRetry 3 200]) ->
            (tip_part = [] \/ exists tip, tip_part = [setTimeout_setMessage 2000 tip]) ->
            let cs := [setMessage ("Sending invite to "
                         ++ (if truthy n
                             then match n with Some x => x | None => "" end
                             else "user " ++ show u) ++ "...")%string]
                        ++ pre ++ [post_match_invite u]
                        ++ [setMessage ("Error: " ++ errorMsg)%string] ++ tip_part in
            message (run c cs) = ("Error: " ++ errorMsg)%string
            /\ outgoingInvite (run c cs) = None
            /\ outgoingInviteTimer (run c cs) = outgoingInviteTimer c).
  { intros pre tip_part [->| ->] [->|[tip ->]]; simpl; auto. }
  assert (P : (if negb (isSocketRegistered c) && connected
               then [registerSocketWithRetry 3 200] else [])
              = [] \/
              (if negb (isSocketRegistered c) && connected
               then [registerSocketWithRetry 3 200] else [])
              = [registerSocketWithRetry 3 200])
    by (destruct (negb (isSocketRegistered c) && connected); auto).
  destruct (includes errorMsg "not online") eqn:I.
  - destruct (S _ [setTimeout_setMessage 2000
                     ("Tip: Make sure the other user is logged in and has set their status to "
                        ++ dquote ++ "searching" ++ dquote
                        ++ ". Try again in a moment.")%string] P
                ltac:(right; eexists; reflexivity)) as (M & O & T).
    cbv zeta in M, O, T.
    split; [exact M|]. split; [exact O|]. split; [exact T|]. split.
    + split; [reflexivity|]. intros _. eexists.
      apply in_or_app. right. apply in_or_app. right.
      right. right. left. reflexivity.
    + apply Invitations.handleSendInvite_free. exact O.
  - destruct (S _ [] P ltac:(left; reflexivity)) as (M & O & T).
    cbv zeta in M, O, T.
    split; [exact M|]. split; [exact O|]. split; [exact T|]. split.
    + split; [|discriminate]. intros (tip & Hin).
      apply in_app_or in Hin. destruct Hin as [[Hin|[]]|Hin]; [discriminate|].
      apply in_app_or in Hin. destruct Hin as [Hin|Hin].
      * destruct (negb (isSocketRegistered c) && connected); simpl in Hin;
          [destruct Hin as [Hin|[]]; discriminate|contradiction].
      * simpl in Hin. destruct Hin as [Hin|[Hin|[]]]; discriminate.
    + apply Invitations.handleSendInvite_free. exact O.
Qed.

(** User 9 is not online: error shown, tip scheduled, free to retry. *)
Lemma rejected_invite_leaves_inviter_free_witness :
  message (run idle (handleSendInvite idle true 9 (Some "Bob")
                       (Rejected (Some "User is not online"))))
    = "Error: User is not online"
  /\ outgoingInvite (run idle (handleSendInvite idle true 9 (Some "Bob")
                                 (Rejected (Some "User is not online")))) = None.
Proof.
  pose proof (rejected_invite_leaves_inviter_free idle true 9 (Some "Bob")
                (Some "User is not online")
                {| socket_connected := true; inviteeUserId := 9;
                   inviteeName := Some "Bob"; settles := Resolved |}
                eq_refl) as (_ & H2 & H3 & _).
  split; [exact H2|exact H3].
Defined.

End AppProps.

(* ===================================================================== *)
(** * Properties of the partner lookup *)
(* ===================================================================== *)

Module PartnerLookupProps.
Import PartnerLookup.

Lemma lookup_from_bounds (r : string) (retries : nat) (token : nat -> bool)
    (answer : nat -> GetResult) (togo a : nat) :
  (a + togo = retries)%nat ->
  (requests_made (lookup_from r retries token answer togo a) <= togo)%nat
  /\ 0 <= waited (lookup_from r retries token answer togo a)
  /\ (0 < waited (lookup_from r retries token answer togo a) ->
        2 * waited (lookup_from r retries token answer togo a)
          <= 1000 * (Z.of_nat retries * (Z.of_nat retries - 1)
                     - Z.of_nat a * (Z.of_nat a + 1))).
Proof.
  revert a. induction togo as [|togo IH]; intros a Hsum; cbn [lookup_from].
  - simpl. repeat split; lia.
  - destruct (token a); cbn [negb]; [|simpl; repeat split; lia].
    destruct (answer a) as [[d|]|status]; cbn [requests_made waited].
    + simpl. repeat split; lia.
    + destruct (IH (S a) ltac:(lia)) as (R & W0 & W).
      split; [lia|]. split; [lia|]. intros P. specialize (W P). nia.
    + destruct (is_404 status); cbn [andb negb].
      * destruct (Nat.ltb_spec (S a) retries) as [L|L].
        -- destruct (IH (S a) ltac:(lia)) as (R & W0 & W).
           cbn [requests_made waited]. split; [lia|]. split; [lia|]. intros _.
           set (w := waited (lookup_from r retries token answer togo (S a))) in *.
           assert (Z.of_nat a + 2 <= Z.of_nat retries) by lia.
           destruct (Z.eq_dec w 0) as [E|E].
           ++ rewrite E. nia.
           ++ assert (P : 0 < w) by lia. specialize (W P). nia.
        -- simpl. repeat split; lia.
      * simpl. repeat split; lia.
Qed.

(** X14. Whatever the server answers, a lookup sends at most [retries]
    requests and waits, in total, no longer than the backoff of
    1 + 2 + ... + ([retries] - 1) seconds; without a room id, or with
    [retries] at 0, it sends nothing. *)
Theorem lookup_is_bounded (roomId : option string) (retries : nat)
    (token : nat -> bool) (answer : nat -> GetResult) :
  let cs := fetchSessionPartner roomId retries token answer in
  (requests_made cs <= retries)%nat
  /\ 0 <= waited cs
  /\ 2 * waited cs <= 1000 * (Z.of_nat retries * (Z.of_nat retries - 1))
  /\ (truthy roomId = false \/ retries = 0%nat -> cs = []).
Proof.
  cbv zeta. unfold fetchSessionPartner.
  assert (N : 0 <= Z.of_nat retries * (Z.of_nat retries - 1))
    by (destruct retries; [simpl; lia|apply Z.mul_nonneg_nonneg; lia]).
  destruct roomId as [r|]; simpl truthy.
  - destruct (String.eqb r "") eqn:Er; cbn [negb andb].
    + cbn [requests_made waited].
      split; [lia|]. split; [lia|]. split; [lia|]. reflexivity.
    + destruct (lookup_from_bounds r retries token answer retries 0 ltac:(lia))
        as (R & W0 & W).
      split; [exact R|]. split; [exact W0|]. split.
      * destruct (Z_lt_le_dec 0 (waited (lookup_from r retries token answer retries 0)))
          as [P|P]; [specialize (W P); lia|lia].
      * intros [H| ->]; [simpl in H; discriminate|reflexivity].
  - cbn [requests_made waited].
    split; [lia|]. split; [lia|]. split; [lia|]. reflexivity.
Qed.

(** No room, no request. *)
Lemma lookup_is_bounded_witness :
  fetchSessionPartner None 8 (fun _ => true) (fun _ => Rejected (Some 404)) = [].
Proof.
  apply (proj2 (proj2 (proj2 (lookup_is_bounded None 8 (fun _ => true)
                                (fun _ => Rejected (Some 404)))))).
  left. reflexivity.
Defined.

(** As long as the answers are 404 and later iterations remain, the loop
    requests, waits a second longer than the last time, and goes on. *)
Lemma lookup_from_404s (r : string) (retries : nat) (token : nat -> bool)
    (answer : nat -> GetResult) (k togo a : nat) :
  (forall i, (a <= i < a + k)%nat ->
     token i = true /\ answer i = Rejected (Some 404)) ->
  (a + k < retries)%nat -> (k <= togo)%nat ->
  lookup_from r retries token answer togo a
    = backoff r a k ++ lookup_from r retries token answer (togo - k) (a + k).
Proof.
  revert togo a. induction k as [|k IH]; intros togo a H Hlt Hk.
  - simpl. now rewrite Nat.sub_0_r, Nat.add_0_r.
  - destruct togo as [|togo]; [lia|].
    cbn [lookup_from backoff].
    destruct (H a ltac:(lia)) as [T A]. rewrite T, A. cbn [negb is_404].
    rewrite Z.eqb_refl. cbn [andb].
    destruct (Nat.ltb_spec (S a) retries); [|lia].
    cbn [app]. do 2 f_equal.
    rewrite (IH togo (S a)); [|intros i Hi; apply H; lia|lia|lia].
    now replace (S a + k)%nat with (a + S k)%nat by lia.
Qed.

Lemma backoff_counts (r : string) (a k : nat) :
  requests_made (backoff r a k) = k
  /\ 2 * waited (backoff r a k)
       = 1000 * (Z.of_nat k * (2 * Z.of_nat a + Z.of_nat k + 1)).
Proof.
  revert a. induction k as [|k IH]; intros a; [split; reflexivity|].
  cbn [backoff requests_made waited].
  destruct (IH (S a)) as [R W]. split; [now rewrite R|]. nia.
Qed.

Lemma backoff_quiet (r : string) (a k : nat) (c : Cmd) :
  In c (backoff r a k) ->
  match c with setMessage _ | setSessionPartner _ => False | _ => True end.
Proof.
  revert a. induction k as [|k IH]; intros a Hin; [contradiction|].
  cbn [backoff] in Hin. destruct Hin as [<-|[<-|Hin]]; [exact I|exact I|].
  now apply IH in Hin.
Qed.

Lemma requests_made_app (xs ys : list Cmd) :
  requests_made (xs ++ ys) = (requests_made xs + requests_made ys)%nat.
Proof.
  induction xs as [|x xs IH]; [reflexivity|].
  destruct x; simpl; now rewrite IH.
Qed.

Lemma waited_app (xs ys : list Cmd) :
  waited (xs ++ ys) = waited xs + waited ys.
Proof.
  induction xs as [|x xs IH]; [reflexivity|].
  destruct x; simpl; rewrite IH; lia.
Qed.

(** X15. When every answer is a 404 the lookup uses all its [retries]
    requests, waiting 1, 2, ..., [retries] - 1 seconds between them, and
    then ends without storing a partner and without showing any message. *)
Theorem lookup_gives_up_silently (r : string) (retries : nat)
    (token : nat -> bool) (answer : nat -> GetResult) :
  r <> "" -> (0 < retries)%nat ->
  (forall i, (i < retries)%nat ->
     token i = true /\ answer i = Rejected (Some 404)) ->
  let cs := fetchSessionPartner (Some r) retries token answer in
  cs = backoff r 0 (retries - 1) ++ [get_partner r]
  /\ requests_made cs = retries
  /\ 2 * waited cs = 1000 * (Z.of_nat retries * (Z.of_nat retries - 1))
  /\ (forall c, In c cs ->
        match c with setMessage _ | setSessionPartner _ => False | _ => True end).
Proof.
  intros Hr Hpos H. cbv zeta. unfold fetchSessionPartner.
  destruct (String.eqb_spec r ""); [contradiction|].
  assert (E : lookup_from r retries token answer retries 0
              = backoff r 0 (retries - 1) ++ [get_partner r]).
  { rewrite (lookup_from_404s r retries token answer (retries - 1) retries 0);
      [|intros i Hi; apply H; lia|lia|lia].
    f_equal. replace (retries - (retries - 1))%nat with 1%nat by lia.
    cbn [lookup_from Nat.add].
    destruct (H (retries - 1)%nat ltac:(lia)) as [T A]. rewrite T, A.
    cbn [negb is_404]. rewrite Z.eqb_refl. cbn [andb].
    destruct (Nat.ltb_spec (S (retries - 1)) retries); [lia|reflexivity]. }
  rewrite E. split; [reflexivity|].
  destruct (backoff_counts r 0 (retries - 1)) as [R W].
  split; [rewrite requests_made_app, R; simpl; lia|].
  split; [rewrite waited_app; simpl waited at 2; nia|].
  intros c Hin. apply in_app_or in Hin. destruct Hin as [Hin|[<-|[]]]; [|exact I].
  now apply backoff_quiet in Hin.
Qed.

(** The default eight retries against a session that never appears:
    eight requests and 28 seconds of waiting. *)
Lemma lookup_gives_up_silently_witness :
  requests_made (fetchSessionPartner (Some "room-7") 8 (fun _ => true)
                   (fun _ => Rejected (Some 404))) = 8%nat
  /\ 2 * waited (fetchSessionPartner (Some "room-7") 8 (fun _ => true)
                   (fun _ => Rejected (Some 404))) = 1000 * (8 * (8 - 1)).
Proof.
  pose proof (lookup_gives_up_silently "room-7" 8 (fun _ => true)
                (fun _ => Rejected (Some 404))
                ltac:(discriminate) ltac:(lia)
                (fun i _ => conj eq_refl eq_refl)) as (_ & H2 & H3 & _).
  split; [exact H2|exact H3].
Defined.

(** X16. After [k] answers of 404, the first answer that is data ends the
    lookup with that data stored as the partner, and the first answer that
    is an error other than 404 ends it with the could-not-load message;
    nothing is requested afterwards. *)
Theorem lookup_ends_at_first_decisive_answer (r : string) (retries k : nat)
    (token : nat -> bool) (answer : nat -> GetResult) :
  r <> "" -> (k < retries)%nat ->
  (forall i, (i <= k)%nat -> token i = true) ->
  (forall i, (i < k)%nat -> answer i = Rejected (Some 404)) ->
  let cs := fetchSessionPartner (Some r) retries token answer in
  (forall data, answer k = Resolved (Some data) ->
     cs = backoff r 0 k ++ [get_partner r; setSessionPartner data])
  /\ (forall status, answer k = Rejected status -> is_404 status = false ->
        cs = backoff r 0 k
               ++ [get_partner r;
                   setMessage "Could not load partner information. Please refresh the page."]).
Proof.
  intros Hr Hk Ht Ha. cbv zeta. unfold fetchSessionPartner.
  destruct (String.eqb_spec r ""); [contradiction|].
  rewrite (lookup_from_404s r retries token answer k retries 0);
    [|intros i Hi; split; [apply Ht|apply Ha]; lia|lia|lia].
  cbn [Nat.add].
  destruct (retries - k)%nat as [|togo] eqn:E; [lia|].
  cbn [lookup_from]. rewrite (Ht k) by lia. cbn [negb].
  split.
  - intros data ->. reflexivity.
  - intros status -> ->. reflexivity.
Qed.

(** The session row shows up on the third try. *)
Lemma lookup_ends_at_first_decisive_answer_witness :
  let bob := {| partner_name := "Bob"; are_friends := false; partner_online := true;
                friend_request_status := None; friend_request_id := None |} in
  fetchSessionPartner (Some "room-7") 8 (fun _ => true)
    (fun i => if (i <? 2)%nat then Rejected (Some 404) else Resolved (Some bob))
  = [ get_partner "room-7"; wait 1000; get_partner "room-7"; wait 2000;
      get_partner "room-7"; setSessionPartner bob ].
Proof.
  cbv zeta.
  apply (proj1 (lookup_ends_at_first_decisive_answer "room-7" 8 2 (fun _ => true)
                  (fun i => if (i <? 2)%nat then Rejected (Some 404)
                            else Resolved (Some {| partner_name := "Bob";
                                                   are_friends := false;
                                                   partner_online := true;
                                                   friend_request_status := None;
                                                   friend_request_id := None |}))
                  ltac:(discriminate) ltac:(lia) (fun _ _ => eq_refl)
                  ltac:(intros i Hi; destruct i as [|[|i]]; [reflexivity|reflexivity|lia]))).
  reflexivity.
Defined.

End PartnerLookupProps.

(* ===================================================================== *)
(** * Properties of the invitee side, the session room and the rating *)
(* ===================================================================== *)

Module SessionProps.
Import Session.

Lemma session_run_app (s : State) (xs ys : list Cmd) :
  run s (xs ++ ys) = run (run s xs) ys.
Proof. apply fold_left_app. Qed.

Lemma session_emitted_app (xs ys : list Cmd) :
  emitted (xs ++ ys) = emitted xs ++ emitted ys.
Proof.
  induction xs as [|x xs IH]; [reflexivity|].
  destruct x; simpl; now rewrite ?IH.
Qed.

Lemma ended_app (xs ys : list Cmd) :
  ended (xs ++ ys) = ended xs ++ ended ys.
Proof.
  induction xs as [|x xs IH]; [reflexivity|].
  destruct x; simpl; now rewrite ?IH.
Qed.

Lemma Inviter_eqb_refl (i : Inviter) : Inviter_eqb i i = true.
Proof.
  unfold Inviter_eqb. now rewrite Z.eqb_refl, !String.eqb_refl.
Qed.

(** ** The incoming-invite countdown *)

Lemma rerender_waiting (fuel : nat) (s : State) (inv : Inviter) :
  incomingInvite (invitee s) = Some inv -> 0 < inviteTimer (invitee s) ->
  rerender (S fuel) s = (s, true).
Proof.
  intros Hi Ht. cbn [rerender]. unfold incomingInviteEffect. rewrite Hi.
  destruct (Z.leb_spec (inviteTimer (invitee s)) 0); [lia|].
  cbn [run fold_left]. unfold same_invitee. rewrite Hi, Inviter_eqb_refl, Z.eqb_refl.
  reflexivity.
Qed.

Lemma rerender_over (fuel : nat) (s : State) (inv : Inviter) :
  incomingInvite (invitee s) = Some inv -> inviteTimer (invitee s) <= 0 ->
  rerender (S (S fuel)) s = (run s [setIncomingInvite None; setInviteTimer 15], false).
Proof.
  intros Hi Ht. destruct s as [a [i t] r m g]. simpl in Hi, Ht. subst i.
  cbn [rerender incomingInviteEffect invitee incomingInvite inviteTimer].
  destruct (Z.leb_spec t 0); [|lia].
  cbn. reflexivity.
Qed.

Lemma rerender_none (fuel : nat) (s : State) :
  incomingInvite (invitee s) = None ->
  rerender (S fuel) s = (run s [setInviteTimer 15], false).
Proof.
  intros Hi. destruct s as [a [i t] r m g]. simpl in Hi. subst i.
  cbn [rerender incomingInviteEffect invitee incomingInvite run fold_left apply_cmd].
  destruct (same_invitee _ _); [reflexivity|].
  destruct fuel; cbn; [reflexivity|].
  unfold same_invitee; cbn. reflexivity.
Qed.

Lemma incoming_seconds_pass_last (n : nat) (k : State * bool) :
  seconds_pass (S n) k = second_passes (seconds_pass n k).
Proof.
  revert k. induction n as [|n IH]; intros k; [reflexivity|].
  change (seconds_pass (S (S n)) k) with (seconds_pass (S n) (second_passes k)).
  now rewrite IH.
Qed.

Lemma seconds_pass_waiting (n : nat) (s : State) (inv : Inviter) :
  incomingInvite (invitee s) = Some inv -> Z.of_nat n < inviteTimer (invitee s) ->
  seconds_pass n (s, true)
    = (run s [setInviteTimer (inviteTimer (invitee s) - Z.of_nat n)], true).
Proof.
  induction n as [|n IH]; intros Hi Ht.
  - destruct s as [a [i t] r m g]; simpl. now rewrite Z.sub_0_r.
  - rewrite incoming_seconds_pass_last, IH by (auto; lia).
    unfold second_passes, settle.
    rewrite (rerender_waiting 1 _ inv); [|exact Hi|simpl; lia].
    destruct s as [a [i t] r m g].
    cbn [run fold_left apply_cmd with_invitee invitee incomingInvite inviteTimer
           app room meet rating].
    replace (t - Z.of_nat n - 1) with (t - Z.of_nat (S n)) by lia.
    reflexivity.
Qed.

(** X17. An invitation arrives and the invitee does nothing.  Whatever
    was on screen before, the popup shows the new inviter with the
    countdown at 15; for each of the next 14 seconds it is still there with
    the countdown one lower; the fifteenth second removes it and puts the
    countdown back to 15.  After that, accept only reports that there is no
    invite and decline does nothing, so nothing reaches the inviter. *)
Theorem incoming_invite_expires_after_15_seconds
    (s : State) (permission : Permission) (inv : Inviter) (connected : bool) :
  let got := run s (handleInviteReceived permission (Some inv)) in
  let start := settle got in
  start = (got, true)
  /\ (forall n : nat, (n < 15)%nat ->
        incomingInvite (invitee (fst (seconds_pass n start))) = Some inv
        /\ inviteTimer (invitee (fst (seconds_pass n start))) = 15 - Z.of_nat n
        /\ snd (seconds_pass n start) = true)
  /\ incomingInvite (invitee (fst (seconds_pass 15 start))) = None
  /\ inviteTimer (invitee (fst (seconds_pass 15 start))) = 15
  /\ snd (seconds_pass 15 start) = false
  /\ emitted (handleAcceptInvite (fst (seconds_pass 15 start)) connected) = []
  /\ handleDeclineInvite (fst (seconds_pass 15 start)) connected = [].
Proof.
  cbv zeta.
  set (got := run s (handleInviteReceived permission (Some inv))).
  assert (Hi : incomingInvite (invitee got) = Some inv)
    by (unfold got, handleInviteReceived; rewrite session_run_app; now destruct permission).
  assert (Ht : inviteTimer (invitee got) = 15)
    by (unfold got, handleInviteReceived; rewrite session_run_app; now destruct permission).
  assert (Hs : settle got = (got, true))
    by (unfold settle; apply rerender_waiting with inv; [exact Hi|lia]).
  rewrite Hs. split; [reflexivity|].
  assert (Hn : forall n : nat, (n < 15)%nat ->
            seconds_pass n (got, true)
              = (run got [setInviteTimer (15 - Z.of_nat n)], true)).
  { intros n Hlt. rewrite (seconds_pass_waiting n got inv), Ht; [reflexivity|exact Hi|lia]. }
  split.
  - intros n Hlt. rewrite (Hn n Hlt). cbn [fst snd].
    split; [exact Hi|]. split; reflexivity.
  - rewrite incoming_seconds_pass_last, (Hn 14%nat) by lia.
    unfold second_passes, settle.
    rewrite (rerender_over 0 _ inv); [|exact Hi|simpl; lia].
    cbn [fst snd]. repeat split.
Qed.

(** Alice invites a client that sits on the dashboard; 15 seconds later
    the popup is gone. *)
Lemma incoming_invite_expires_after_15_seconds_witness :
  incomingInvite
    (invitee (fst (seconds_pass 15
                     (settle (run mounted (handleInviteReceived granted (Some alice)))))))
    = None
  /\ incomingInvite
       (invitee (fst (seconds_pass 14
                        (settle (run mounted (handleInviteReceived granted (Some alice)))))))
     = Some alice.
Proof.
  pose proof (incoming_invite_expires_after_15_seconds mounted granted alice true)
    as (_ & H & H15 & _).
  split; [exact H15|]. exact (proj1 (H 14%nat ltac:(lia))).
Defined.

(** ** Declining and accepting *)

(** X18. Declining with no popup does nothing.  Declining a popup closes
    it and puts the countdown back to 15 whether or not the socket is
    connected, but the inviter is told, by one [decline_invitation] with
    the inviter's user id, only when it is connected. *)
Theorem decline_closes_popup (c : State) (connected : bool) :
  match incomingInvite (invitee c) with
  | None => handleDeclineInvite c connected = []
  | Some inv =>
      emitted (handleDeclineInvite c connected)
        = (if connected then [decline_invitation (user_id inv)] else [])
      /\ incomingInvite (invitee (run c (handleDeclineInvite c connected))) = None
      /\ inviteTimer (invitee (run c (handleDeclineInvite c connected))) = 15
      /\ app (run c (handleDeclineInvite c connected)) = app c
  end.
Proof.
  unfold handleDeclineInvite.
  destruct (incomingInvite (invitee c)) as [inv|]; [|reflexivity].
  rewrite session_emitted_app, session_run_app.
  destruct connected; simpl; repeat split; reflexivity.
Qed.

(** X19. Accepting.  With no popup, or with the socket not connected,
    only an error message is shown and nothing is emitted (a popup stays
    open in the second case).  Otherwise exactly one [accept_invitation]
    carrying the inviter's user id is emitted and the popup stays open; if
    the server then answers with an error, or not at all within 15 seconds,
    the popup is closed. *)
Theorem accept_emits_once (c : State) (connected : bool) :
  let cs := handleAcceptInvite c connected in
  match incomingInvite (invitee c) with
  | None =>
      cs = [app_cmd (App.setMessage "Error: No invite to accept")]
  | Some inv =>
      invitee (run c cs) = invitee c
      /\ if connected then
           emitted cs = [accept_invitation (user_id inv)]
           /\ (forall m, incomingInvite
                           (invitee (run (run c cs) (afterAccept (failed m)))) = None)
           /\ incomingInvite (invitee (run (run c cs) (afterAccept unanswered))) = None
           /\ run (run c cs) (afterAccept confirmed) = run c cs
         else
           emitted cs = []
           /\ cs = [app_cmd (App.setMessage
                               "Error: Not connected to server. Please refresh the page.")]
  end.
Proof.
  cbv zeta. unfold handleAcceptInvite.
  destruct (incomingInvite (invitee c)) as [inv|] eqn:Hi; [|reflexivity].
  destruct connected; cbn [negb].
  - split; [destruct c as [a [i t] r m g]; reflexivity|].
    repeat split; reflexivity.
  - split; [destruct c as [a [i t] r m g]; reflexivity|].
    split; reflexivity.
Qed.

(** ** Entering the room *)

(** What the listener of the first render does with a room id. *)
Lemma handleMatchConfirmed_fresh (c : State) (r : string) (i : option Z)
    (n : option string) :
  App.sessionRoom (app c) = None -> r <> "" ->
  handleMatchConfirmed c {| room_id := Some r; session_id := i; invitee_name := n |}
    = [ setSessionRoom (Some r); setSessionId i; setPomodoroCount 0;
        setIncomingInvite None; app_cmd (App.setOutgoingInvite None);
        setInviteTimer 15; app_cmd (App.setOutgoingInviteTimer 15);
        setGoogleMeetRequest None; setGoogleMeetAccepted false;
        setGoogleMeetLink None; setMatchResults None;
        app_cmd (App.setMessages (fun _ => []));
        emit (join_room r);
        fetchSessionPartner_after (if truthy n then 1500 else 2500) r;
        app_cmd (App.setMessage
                   (if truthy n
                    then ("Session started with "
                            ++ match n with Some x => x | None => "" end
                            ++ "! Joined room: " ++ r)%string
                    else ("Session started! Joined room: " ++ r)%string)) ].
Proof.
  intros Hc Hr. unfold handleMatchConfirmed. cbn [room_id].
  destruct (String.eqb_spec r ""); [contradiction|].
  rewrite Hc. cbn [same_room session_id invitee_name].
  now destruct (truthy n).
Qed.

(** What leaving sends: on the socket and to the API. *)
Lemma handleLeaveSession_traffic (c : State) (connected : bool) :
  emitted (handleLeaveSession c connected)
    = (match App.sessionRoom (app c) with
       | Some r => if negb (String.eqb r "") && connected then [leave_room r] else []
       | None => []
       end)
  /\ ended (handleLeaveSession c connected)
       = (match sessionId (room c) with
          | Some i => if i =? 0 then [] else [(i, pomodoroCount (room c))]
          | None => []
          end).
Proof.
  unfold handleLeaveSession.
  rewrite !session_emitted_app, !ended_app.
  assert (E2 : emitted (endCurrentSession c) = []).
  { unfold endCurrentSession. destruct (sessionId (room c)) as [i|]; [|reflexivity].
    now destruct (i =? 0). }
  assert (D1 : forall r : string,
            ended (if negb (String.eqb r "") && connected
                   then [emit (leave_room r)] else []) = [])
    by (intros r; now destruct (negb (String.eqb r "") && connected)).
  rewrite E2.
  destruct (truthy_number (sessionId (room c)) || truthy (App.sessionRoom (app c)));
    cbn [emitted ended]; rewrite !app_nil_r.
  - split.
    + destruct (App.sessionRoom (app c)) as [r|]; [|reflexivity].
      now destruct (negb (String.eqb r "") && connected).
    + unfold endCurrentSession.
      destruct (App.sessionRoom (app c)) as [r|]; rewrite ?D1;
        (destruct (sessionId (room c)) as [i|]; [|reflexivity]);
        now destruct (i =? 0).
  - split.
    + destruct (App.sessionRoom (app c)) as [r|]; [|reflexivity].
      now destruct (negb (String.eqb r "") && connected).
    + unfold endCurrentSession.
      destruct (App.sessionRoom (app c)) as [r|]; rewrite ?D1;
        (destruct (sessionId (room c)) as [i|]; [|reflexivity]);
        now destruct (i =? 0).
Qed.

(** X20. [match_confirmed] with a room id [r].  The listener holds the
    snapshot of the first render, in which there is no session room; so
    whatever the client's state is now, also when it is in room [r]
    already, the event puts it in room [r] with the carried session id,
    the pomodoro count at 0, both invitations cleared with their countdowns
    at 15, and the chat list emptied; it emits one [join_room] for [r] and
    schedules the partner lookup, 2.5 seconds later when the payload has no
    invitee name and 1.5 seconds later when it has one.  Only a listener
    whose snapshot were in room [r] would ignore the event. *)
Theorem match_confirmed_enters_room
    (c s : State) (r : string) (i : option Z) (n : option string) :
  App.sessionRoom (app c) = None -> r <> "" ->
  let data := {| room_id := Some r; session_id := i; invitee_name := n |} in
  let cs := handleMatchConfirmed c data in
  let s' := run s cs in
  App.sessionRoom (app s') = Some r
  /\ sessionId (room s') = i
  /\ pomodoroCount (room s') = 0
  /\ invitee s' = {| incomingInvite := None; inviteTimer := 15 |}
  /\ App.outgoingInvite (app s') = None
  /\ App.outgoingInviteTimer (app s') = 15
  /\ App.messages (app s') = []
  /\ emitted cs = [join_room r]
  /\ In (fetchSessionPartner_after (if truthy n then 1500 else 2500) r) cs
  /\ (forall c' : State,
        App.sessionRoom (app c') = Some r -> handleMatchConfirmed c' data = []).
Proof.
  intros Hc Hr. cbv zeta. rewrite (handleMatchConfirmed_fresh c r i n Hc Hr).
  repeat split.
  - do 13 right; left; reflexivity.
  - intros c' Hc'. unfold handleMatchConfirmed. cbn [room_id].
    destruct (String.eqb_spec r ""); [contradiction|].
    rewrite Hc'. cbn [same_room]. now rewrite String.eqb_refl.
Qed.

(** The duplicate of the event that opened room 7 empties the chat of a
    client that is in room 7 already. *)
Lemma match_confirmed_enters_room_witness :
  App.messages (app in_session) = [App.alice_hello]
  /\ App.messages
       (app (run in_session
               (handleMatchConfirmed mounted
                  {| room_id := Some "room-7"; session_id := Some 31;
                     invitee_name := None |})))
     = [].
Proof.
  split; [reflexivity|].
  pose proof (match_confirmed_enters_room mounted in_session "room-7" (Some 31) None
                eq_refl ltac:(discriminate)) as (_ & _ & _ & _ & _ & _ & H & _).
  exact H.
Defined.

(** X21. A [match_confirmed] without a room id shows the invalid-data
    error and does nothing else: nothing is emitted, no lookup is
    scheduled, and the room, the chat list, the invitations and the session
    cells stay as they are. *)
Theorem match_confirmed_without_room (c s : State) (r : option string)
    (i : option Z) (n : option string) :
  truthy r = false ->
  let cs := handleMatchConfirmed c {| room_id := r; session_id := i; invitee_name := n |} in
  let s' := run s cs in
  emitted cs = []
  /\ (forall ms room', ~ In (fetchSessionPartner_after ms room') cs)
  /\ App.message (app s') = "Error: Invalid session data received"
  /\ App.sessionRoom (app s') = App.sessionRoom (app s)
  /\ App.messages (app s') = App.messages (app s)
  /\ App.outgoingInvite (app s') = App.outgoingInvite (app s)
  /\ invitee s' = invitee s /\ room s' = room s.
Proof.
  intros Hr. cbv zeta. unfold handleMatchConfirmed. cbn [room_id].
  assert (E : match r with
              | Some r0 =>
                  if String.eqb r0 "" then
                    [app_cmd (App.setMessage "Error: Invalid session data received")]
                  else [app_cmd (App.setMessage "Error: Invalid session data received")]
              | None => [app_cmd (App.setMessage "Error: Invalid session data received")]
              end = [app_cmd (App.setMessage "Error: Invalid session data received")])
    by (destruct r as [r0|]; [destruct (String.eqb r0 "")|]; reflexivity).
  destruct r as [r0|]; [|repeat split; intros ms room' [H|[]]; discriminate].
  simpl in Hr. destruct (String.eqb r0 ""); [|discriminate].
  repeat split; intros ms room' [H|[]]; discriminate.
Qed.

Lemma match_confirmed_without_room_witness :
  run in_session (handleMatchConfirmed mounted
                    {| room_id := None; session_id := Some 32; invitee_name := None |})
    = run in_session [app_cmd (App.setMessage "Error: Invalid session data received")]
  /\ emitted (handleMatchConfirmed mounted
                {| room_id := None; session_id := Some 32; invitee_name := None |}) = [].
Proof.
  pose proof (match_confirmed_without_room mounted in_session None (Some 32) None eq_refl)
    as (H & _).
  split; [reflexivity|exact H].
Defined.

(** ** Leaving *)

Lemma same_sessionId_refl (a : option Z) : same_sessionId a a = true.
Proof. destruct a; simpl; [apply Z.eqb_refl|reflexivity]. Qed.

(** After the handler's setters the client has no session id. *)
Lemma handleLeaveSession_sessionId (c : State) (connected : bool) :
  sessionId (room (run c (handleLeaveSession c connected))) = None.
Proof.
  unfold handleLeaveSession, endCurrentSession.
  destruct c as [[msg reg og ot sr ms nm] iv [sid pc sp mr] mt rt].
  cbn [app room App.sessionRoom sessionId pomodoroCount].
  destruct sr as [r|], sid as [i|], connected; cbn;
    repeat match goal with
           | |- context [String.eqb r ""] => destruct (String.eqb r "")
           | |- context [i =? 0] => destruct (i =? 0)
           end;
    reflexivity.
Qed.

(** The cleanup only posts; it sets nothing and emits nothing. *)
Lemma sessionCleanup_quiet (c0 s : State) :
  run s (sessionCleanup c0) = s /\ emitted (sessionCleanup c0) = [].
Proof.
  unfold sessionCleanup, endCurrentSession.
  destruct (truthy_number (sessionId (room c0))); [|split; reflexivity].
  destruct (sessionId (room c0)) as [i|]; [|split; reflexivity].
  destruct (i =? 0); split; reflexivity.
Qed.

(** What leaving posts to [/api/sessions/end], commit included. *)
Lemma leaveSession_ended (c0 c : State) (connected : bool) :
  sessionId (room c0) = sessionId (room c) ->
  ended (leaveSession c0 c connected)
    = match sessionId (room c) with
      | Some i =>
          if i =? 0 then []
          else [(i, pomodoroCount (room c)); (i, pomodoroCount (room c0))]
      | None => []
      end.
Proof.
  intros H. unfold leaveSession, and_commit.
  rewrite ended_app, handleLeaveSession_sessionId.
  destruct (handleLeaveSession_traffic c connected) as [_ D]. rewrite D.
  unfold sessionCleanup, endCurrentSession, truthy_number. rewrite H.
  destruct (sessionId (room c)) as [i|]; [|reflexivity].
  cbn [same_sessionId]. destruct (i =? 0); reflexivity.
Qed.

(** X22. Leaving, commit included.  One [leave_room] for the current
    room is emitted exactly when the client is in a room and connected.
    When there is a session id, two session-end requests are posted for
    it: first the handler's own, with the current pomodoro count, and
    then, because the commit clears the session id, the one of the cleanup
    of the effect on the session id, with the pomodoro count of the render
    in which the session id was set; with no session id nothing is posted.
    Afterwards the client is in no room, has no session id, no partner, a
    count of 0 and an empty chat, so the chat send handler does nothing;
    and the rating modal opens, remembering the session id and room,
    exactly when there was a session id or a room. *)
Theorem leave_ends_session_twice (c0 c : State) (connected : bool) (now : Z) :
  sessionId (room c0) = sessionId (room c) ->
  let cs := leaveSession c0 c connected in
  let s := run c cs in
  emitted cs
    = (match App.sessionRoom (app c) with
       | Some r => if negb (String.eqb r "") && connected then [leave_room r] else []
       | None => []
       end)
  /\ ended cs
       = (match sessionId (room c) with
          | Some i =>
              if i =? 0 then []
              else [(i, pomodoroCount (room c)); (i, pomodoroCount (room c0))]
          | None => []
          end)
  /\ App.sessionRoom (app s) = None
  /\ App.messages (app s) = []
  /\ sessionId (room s) = None /\ pomodoroCount (room s) = 0
  /\ sessionPartner (room s) = None
  /\ App.handleSendMessage (app s) now = []
  /\ rating s
       = (if truthy_number (sessionId (room c)) || truthy (App.sessionRoom (app c))
          then {| showRatingModal := true;
                  sessionIdForRating := sessionId (room c);
                  roomIdForRating := App.sessionRoom (app c);
                  sessionRating := 0; matchmakingRating := 0; feedbackText := "" |}
          else rating c).
Proof.
  intros H. cbv zeta.
  split.
  { unfold leaveSession, and_commit. rewrite session_emitted_app.
    destruct (handleLeaveSession_traffic c connected) as [E _]. rewrite E.
    destruct (same_sessionId _ _); [now rewrite app_nil_r|].
    rewrite (proj2 (sessionCleanup_quiet c0 c)). now rewrite app_nil_r. }
  split; [now apply leaveSession_ended|].
  assert (R : run c (leaveSession c0 c connected) = run c (handleLeaveSession c connected)).
  { unfold leaveSession, and_commit. rewrite session_run_app.
    destruct (same_sessionId _ _); [reflexivity|].
    apply (proj1 (sessionCleanup_quiet c0 _)). }
  rewrite R. clear R H.
  unfold handleLeaveSession, endCurrentSession, App.handleSendMessage.
  destruct c as [[msg reg og ot sr ms nm] iv [sid pc sp mr] mt rt].
  cbn [app room App.sessionRoom sessionId pomodoroCount].
  destruct sr as [r|], sid as [i|], connected; cbn;
    repeat match goal with
           | |- context [String.eqb r ""] => destruct (String.eqb r "")
           | |- context [i =? 0] => destruct (i =? 0)
           end;
    cbn; rewrite ?Bool.orb_true_r; cbn; repeat split; reflexivity.
Qed.

(** Session 31 was opened with a count of 0; two pomodoros later the
    client leaves: the end is posted with 2 and then again with 0. *)
Lemma leave_ends_session_twice_witness :
  ended (leaveSession (run in_session [setPomodoroCount 0]) in_session true)
    = [(31, 2); (31, 0)].
Proof.
  exact (proj1 (proj2 (leave_ends_session_twice
                         (run in_session [setPomodoroCount 0]) in_session true 0
                         eq_refl))).
Defined.

(** X23. The pomodoro count and the two session ends.  A client that
    is not in session [i] receives the [match_confirmed] that opens it: the
    session id changes, so from then on the effect on the session id holds
    the render that opened the session, in which the count is 0, and the
    pomodoros that follow do not replace that render.  After [n] completed
    pomodoros, each reported by the timer through [onPomodoroComplete],
    leaving posts two session ends for session [i]: one with a count of
    [n], then one with a count of 0. *)
Theorem session_end_reports_pomodoros
    (c c0 s : State) (r : string) (i : Z) (name : option string) (n : nat)
    (connected : bool) :
  App.sessionRoom (app c) = None -> r <> "" -> i <> 0 ->
  sessionId (room c0) = sessionId (room s) -> sessionId (room s) <> Some i ->
  let cs := handleMatchConfirmed c {| room_id := Some r; session_id := Some i;
                                      invitee_name := name |} in
  let opened := run s cs in
  let held := snapshot_after c0 s cs in
  let worked := Nat.iter n (fun st => run st onPomodoroComplete) opened in
  held = opened
  /\ pomodoroCount (room held) = 0
  /\ (forall st : State, sessionId (room st) = Some i ->
        snapshot_after held st onPomodoroComplete = held)
  /\ sessionId (room worked) = Some i
  /\ pomodoroCount (room worked) = Z.of_nat n
  /\ ended (leaveSession held worked connected) = [(i, Z.of_nat n); (i, 0)]
  /\ emitted (leaveSession held worked connected)
       = if connected then [leave_room r] else [].
Proof.
  intros Hc Hr Hi H0 Hs. cbv zeta.
  rewrite (handleMatchConfirmed_fresh c r (Some i) name Hc Hr).
  match goal with |- context [snapshot_after c0 s ?l] => set (cs := l) end.
  set (opened := run s cs).
  assert (O : sessionId (room opened) = Some i) by reflexivity.
  assert (P : pomodoroCount (room opened) = 0) by reflexivity.
  assert (Q : App.sessionRoom (app opened) = Some r) by reflexivity.
  assert (N : same_sessionId (Some i) (sessionId (room s)) = false).
  { destruct (sessionId (room s)) as [j|]; [|reflexivity].
    cbn [same_sessionId]. destruct (Z.eqb_spec i j); [subst j; congruence|reflexivity]. }
  assert (Hh : snapshot_after c0 s cs = opened).
  { unfold snapshot_after. fold opened. now rewrite O, H0, N. }
  rewrite !Hh.
  assert (W : forall k,
            App.sessionRoom (app (Nat.iter k (fun st => run st onPomodoroComplete) opened))
              = Some r
            /\ sessionId (room (Nat.iter k (fun st => run st onPomodoroComplete) opened))
                 = Some i
            /\ pomodoroCount (room (Nat.iter k (fun st => run st onPomodoroComplete) opened))
                 = Z.of_nat k).
  { induction k as [|k (A & B & C)]; [repeat split; assumption|].
    cbn [Nat.iter].
    set (st := Nat.iter k (fun st => run st onPomodoroComplete) opened) in *.
    split; [exact A|]. split; [exact B|].
    change (pomodoroCount (room st) + 1 = Z.of_nat (S k)). rewrite C. lia. }
  destruct (W n) as (A & B & C).
  split; [reflexivity|]. split; [exact P|]. split.
  { intros st Hst. unfold snapshot_after.
    change (sessionId (room (run st onPomodoroComplete))) with (sessionId (room st)).
    rewrite Hst, O. cbn [same_sessionId]. now rewrite Z.eqb_refl. }
  split; [exact B|]. split; [exact C|]. split.
  - rewrite leaveSession_ended by (now rewrite O, B).
    rewrite B, C, P. destruct (Z.eqb_spec i 0); [contradiction|reflexivity].
  - unfold leaveSession, and_commit. rewrite session_emitted_app.
    destruct (handleLeaveSession_traffic
                (Nat.iter n (fun st => run st onPomodoroComplete) opened) connected)
      as (E & _).
    rewrite E, A.
    destruct (String.eqb_spec r ""); [contradiction|].
    pose proof (proj2 (sessionCleanup_quiet opened opened)) as Em.
    rewrite handleLeaveSession_sessionId, O. cbn [same_sessionId].
    rewrite Em. now destruct connected.
Qed.

(** Session 31 in room 7, opened from the dashboard: two pomodoros, then
    leave. *)
Lemma session_end_reports_pomodoros_witness :
  let cs := handleMatchConfirmed mounted
              {| room_id := Some "room-7"; session_id := Some 31;
                 invitee_name := Some "Bob" |} in
  ended (leaveSession (snapshot_after mounted mounted cs)
           (Nat.iter 2 (fun st => run st onPomodoroComplete) (run mounted cs))
           true)
    = [(31, 2); (31, 0)].
Proof.
  cbv zeta.
  pose proof (session_end_reports_pomodoros mounted mounted mounted "room-7" 31
                (Some "Bob") 2 true eq_refl ltac:(discriminate) ltac:(discriminate)
                eq_refl ltac:(discriminate))
    as (_ & _ & _ & _ & _ & H & _).
  exact H.
Defined.

(** ** Rating *)

Lemma number_or_null_nonzero (n : option Z) : number_or_null n <> Some 0.
Proof.
  unfold number_or_null, truthy_number. destruct n as [n|]; [|discriminate].
  destruct (Z.eqb_spec n 0); simpl; congruence.
Qed.

Lemma string_or_null_nonempty (t : option string) : string_or_null t <> Some "".
Proof.
  unfold string_or_null, truthy. destruct t as [t|]; [|discriminate].
  destruct (String.eqb_spec t ""); simpl; congruence.
Qed.

(** X24. Submitting the rating.  Nothing is posted, and the modal and its
    entries stay as they are, when there is neither a session id nor a room
    to rate or when both ratings are 0.  Otherwise exactly one rating is
    posted: each of its five fields is the entry of the modal when that
    entry is a number other than 0 or a string other than the empty one,
    and is null when the entry is 0, empty or missing.  When the request
    succeeds the modal is closed and its entries are reset; when it fails
    they are kept so that the user can submit again. *)
Theorem rating_posted_only_when_given (c : State) (res : App.PostResult) :
  let cs := handleSubmitRating c res in
  if (negb (truthy_number (sessionIdForRating (rating c)))
      && negb (truthy (roomIdForRating (rating c))))
     || ((sessionRating (rating c) =? 0) && (matchmakingRating (rating c) =? 0))
  then rated cs = [] /\ rating (run c cs) = rating c
  else
    rated cs
      = [ {| rate_session_id :=
               match sessionIdForRating (rating c) with
               | Some i => if i =? 0 then None else Some i
               | None => None
               end;
             rate_room_id :=
               match roomIdForRating (rating c) with
               | Some r => if String.eqb r "" then None else Some r
               | None => None
               end;
             rate_session_rating :=
               if sessionRating (rating c) =? 0 then None
               else Some (sessionRating (rating c));
             rate_matchmaking_rating :=
               if matchmakingRating (rating c) =? 0 then None
               else Some (matchmakingRating (rating c));
             rate_feedback_text :=
               if String.eqb (feedbackText (rating c)) "" then None
               else Some (feedbackText (rating c)) |} ]
    /\ rating (run c cs)
         = match res with
           | App.Resolved =>
               {| showRatingModal := false; sessionIdForRating := None;
                  roomIdForRating := None; sessionRating := 0;
                  matchmakingRating := 0; feedbackText := "" |}
           | App.Rejected _ => rating c
           end.
Proof.
  cbv zeta. unfold handleSubmitRating.
  destruct (negb (truthy_number (sessionIdForRating (rating c)))
            && negb (truthy (roomIdForRating (rating c)))); cbn [orb].
  - split; [reflexivity|]. now destruct c.
  - destruct ((sessionRating (rating c) =? 0) && (matchmakingRating (rating c) =? 0)).
    + split; [reflexivity|]. now destruct c as [a iv rm mt rt].
    + split.
      * assert (R : forall body tail, rated tail = [] ->
                  rated ([post_sessions_rate body] ++ tail) = [body])
          by (intros body tail T; simpl; now rewrite T).
        rewrite R by (destruct res; reflexivity).
        f_equal. unfold number_or_null, string_or_null, truthy_number, truthy.
        destruct (sessionIdForRating (rating c)) as [i|];
          destruct (roomIdForRating (rating c)) as [r|];
          try destruct (i =? 0); try destruct (String.eqb r "");
          destruct (sessionRating (rating c) =? 0);
          destruct (matchmakingRating (rating c) =? 0);
          destruct (String.eqb (feedbackText (rating c)) ""); reflexivity.
      * destruct res; [reflexivity|]. now destruct c as [a iv rm mt [m1 m2 m3 m4 m5 m6]].
Qed.

End SessionProps.
